(** * thoth-adviser: pipeline units and command-line workflows

    A shallow embedding of

    - [thoth/adviser/wraps/sort_justifications.py]  ([SortJustificationsWrap]),
    - [thoth/adviser/boots/fully_specified_environment.py]
      ([FullySpecifiedEnvironment]),
    - [thoth/adviser/cli.py]  ([provenance], [advise], [dependency_monkey]),

    followed by the properties of these units and commands.

    Python objects mutated in place are modelled by explicit state passing:
    a method takes the object and returns the object after the call together
    with how the call completed ([Returned] or [Raised e]).  Strings are byte
    strings (UTF-8); the byte-wise lexicographic order of [String.compare]
    coincides with Python's code-point order on [str]. *)

From stdpp Require Import gmap strings list sorting pretty.
From Stdlib Require Import Ascii ZArith Qcanon OrderedTypeEx.

Local Open Scope string_scope.
Local Open Scope list_scope.
Local Open Scope Z_scope.

(** ** Python basics *)

Module Py.

(** An exception object: [type(exc).__name__] and [str(exc)]. *)
Record exception := Exception { exc_class : string; exc_msg : string }.

(** The class hierarchy lives in modules outside the embedded files
    ([thoth.adviser.exceptions], [thoth.solver]); it is a parameter:
    [superclasses c] lists the proper ancestors of class [c]. *)
Definition class_table := string -> list string.

Definition isinstance (tbl : class_table) (e : exception) (c : string) : bool :=
  bool_decide (exc_class e = c) || bool_decide (c ∈ tbl (exc_class e)).

(** [NotAcceptable(msg)] of [thoth.adviser.exceptions] *)
Definition NotAcceptable (msg : string) : exception :=
  Exception "NotAcceptable" msg.

(** How a call that returns [None] completes. *)
Inductive completion :=
| Returned
| Raised (e : exception).

(** JSON-like values for the dictionaries the commands build and print. *)
#[local] Unset Elimination Schemes.
Inductive value :=
| VNone
| VBool (b : bool)
| VInt (z : Z)
| VStr (s : string)
| VList (l : list value)
| VDict (d : list (string * value)).
#[local] Set Elimination Schemes.

(** Truth value testing ([if x:]). *)
Definition truthy (v : value) : bool :=
  match v with
  | VNone => false
  | VBool b => b
  | VInt z => negb (z =? 0)
  | VStr s => negb (String.eqb s "")
  | VList l => match l with [] => false | _ => true end
  | VDict d => match d with [] => false | _ => true end
  end.

(** Dictionaries keep insertion order; assigning to a present key keeps
    its position. *)
Fixpoint dict_set (k : string) (v : value) (d : list (string * value))
  : list (string * value) :=
  match d with
  | [] => [(k, v)]
  | (k', v') :: d' =>
      if String.eqb k' k then (k, v) :: d' else (k', v') :: dict_set k v d'
  end.

Fixpoint dict_get (k : string) (d : list (string * value)) : option value :=
  match d with
  | [] => None
  | (k', v') :: d' => if String.eqb k' k then Some v' else dict_get k d'
  end.

(** [d[k]] for a key the code has put there before; [VNone] stands for
    the missing key, which does not occur. *)
Definition dict_item (k : string) (d : list (string * value)) : value :=
  default VNone (dict_get k d).

(** [d[k].append(x)] *)
Definition dict_append (k : string) (x : value) (d : list (string * value))
  : list (string * value) :=
  match dict_item k d with
  | VList l => dict_set k (VList (l ++ [x])) d
  | _ => d
  end.

(** [d[k][k'] = x] *)
Definition dict_set_in (k k' : string) (x : value) (d : list (string * value))
  : list (string * value) :=
  match dict_item k d with
  | VDict inner => dict_set k (VDict (dict_set k' x inner)) d
  | _ => d
  end.

(** [x is True] followed by [int(...)]. *)
Definition int_is_True (v : value) : Z :=
  match v with VBool true => 1 | _ => 0 end.

(** Order on tuples of three strings: the first component that differs
    decides. *)
Definition key := (string * string * string)%type.

Definition key_compare (k1 k2 : key) : comparison :=
  let '(a1, b1, c1) := k1 in
  let '(a2, b2, c2) := k2 in
  match String.compare a1 a2 with
  | Eq => match String.compare b1 b2 with
          | Eq => String.compare c1 c2
          | c => c
          end
  | c => c
  end.

(** [k1 < k2] *)
Definition key_ltb (k1 k2 : key) : bool :=
  match key_compare k1 k2 with Lt => true | _ => false end.

(** [k1 <= k2] *)
Definition key_le (k1 k2 : key) : Prop := key_compare k1 k2 <> Gt.

(** [list.sort(key=f)]: a stable sort that only asks whether one key is
    smaller than another.  An element is inserted in front of the sorted
    rest and moves right only past elements with a strictly smaller key, so
    elements with equal keys keep their original order. *)
Section Sort.
Context {A : Type} (f : A -> key).

Fixpoint insert_by_key (x : A) (l : list A) : list A :=
  match l with
  | [] => [x]
  | y :: l' =>
      if key_ltb (f y) (f x) then y :: insert_by_key x l'
      else x :: y :: l'
  end.

Fixpoint sort_by_key (l : list A) : list A :=
  match l with
  | [] => []
  | x :: l' => insert_by_key x (sort_by_key l')
  end.
End Sort.

End Py.

(** ** Data model *)

(** Modelled from the spec: the justification entries of a [State] (the
    module [thoth.adviser.state] is not among the embedded files).  An entry
    is a dictionary with the keys ["package_name"] (optional), ["type"],
    ["message"] and ["link"] (optional).  The type is one of ["INFO"],
    ["WARNING"], ["ERROR"] and ["LATEST"]; the units handle it as the string
    it is. *)
Record Entry := mkEntry {
  package_name : option string;
  type : string;
  message : string;
  link : option string
}.

(** Modelled from the spec: the class [State] of [thoth.adviser.state],
    with the four fields of the spec's data model; the score, a real number
    no unit embedded here computes with, is a rational. *)
Record State := mkState {
  resolved : gmap string string;
  unresolved : list string;
  score : Qc;
  justification : list Entry
}.

(** Modelled from the spec: the run kinds a pipeline build context
    distinguishes. *)
Inductive RunKind := Advise | ProvenanceCheck | DependencyMonkey.

(** A unit class is identified by its name. *)
Definition unit_class := string.

(** Modelled from the spec: the class [PipelineBuilderContext] of
    [thoth.adviser.pipeline_builder], reduced to the run kind and the
    insertion-ordered set of unit classes already included, with the two
    predicates [should_include] consults. *)
Record PipelineBuilderContext := mkBuilderContext {
  run_kind : RunKind;
  included : list unit_class
}.

Definition is_included (ctx : PipelineBuilderContext) (cls : unit_class) : bool :=
  bool_decide (cls ∈ included ctx).

Definition is_adviser_pipeline (ctx : PipelineBuilderContext) : bool :=
  match run_kind ctx with Advise => true | _ => false end.

(** A parameter-set yielded by [should_include]. *)
Definition parameter_set := gmap string Py.value.

(** The attributes of [thoth.common.RuntimeEnvironment] the boot reads;
    each is a string or [None]. *)
Record OperatingSystem := mkOS {
  os_name : option string;
  os_version : option string
}.

Record RuntimeEnvironment := mkRuntimeEnvironment {
  operating_system : OperatingSystem;
  python_version : option string
}.

(** Modelled from the spec: the class [Context] of [thoth.adviser.context],
    reduced to what the boot reads and writes,
    [context.project.runtime_environment] and [context.stack_info]. *)
Record Context := mkContext {
  runtime_environment : RuntimeEnvironment;
  stack_info : list Entry
}.

(** ** [wraps/sort_justifications.py] *)

Module SortJustificationsWrap.

(** The generator is represented by the list of what it yields. *)
Definition should_include (cls : unit_class) (builder_context : PipelineBuilderContext)
  : list parameter_set :=
  if negb (is_included builder_context cls) then [∅] else [].

(** [lambda i: (i.get("package_name", ""), i["type"], i["message"])] *)
Definition sort_key (i : Entry) : Py.key :=
  (default "" (package_name i), type i, message i).

(** [state.justification.sort(key=...)] *)
Definition run (state : State) : State * Py.completion :=
  (mkState (resolved state) (unresolved state) (score state)
     (Py.sort_by_key sort_key (justification state)),
   Py.Returned).

End SortJustificationsWrap.

(** ** [boots/fully_specified_environment.py] *)

Module FullySpecifiedEnvironment.

Definition should_include (cls : unit_class) (builder_context : PipelineBuilderContext)
  : list parameter_set :=
  if is_adviser_pipeline builder_context && negb (is_included builder_context cls)
  then [∅] else [].

Section Run.
(** From [thoth.common]: [RuntimeEnvironment.is_fully_specified] and
    [get_justification_link]; from Python: [repr] of a string. *)
Variable is_fully_specified : RuntimeEnvironment -> bool.
Variable jl : string -> string.
Variable repr_str : string -> string.

(** The [!r] conversion of an attribute that is a string or [None]. *)
Definition repr (o : option string) : string :=
  match o with
  | None => "None"
  | Some s => repr_str s
  end.

Definition not_fully_specified_msg (env : RuntimeEnvironment) : string :=
  "Software environment supplied is not fully specified, OS name "
  +:+ "is " +:+ repr (os_name (operating_system env)) +:+ " "
  +:+ "in version " +:+ repr (os_version (operating_system env)) +:+ " "
  +:+ "using Python " +:+ repr (python_version env).

Definition run (context : Context) : Context * Py.completion :=
  if negb (is_fully_specified (runtime_environment context)) then
    let msg := not_fully_specified_msg (runtime_environment context) in
    (mkContext (runtime_environment context)
       (stack_info context
          ++ [mkEntry None "ERROR" msg (Some (jl "fully_specified_env"))]),
     Py.Raised (Py.NotAcceptable msg))
  else (context, Py.Returned).
End Run.

End FullySpecifiedEnvironment.

(** ** [cli.py] *)

Module Cli.
Import Py.

(** A call that returns a value or raises. *)
Inductive raising (A : Type) :=
| Ok (a : A)
| Err (e : exception).
Arguments Ok {A} a.
Arguments Err {A} e.

#[global] Instance raising_ret : MRet raising := @Ok.
#[global] Instance raising_bind : MBind raising := fun A B f x =>
  match x with
  | Ok a => f a
  | Err e => Err e
  end.
#[global] Instance raising_fmap : FMap raising := fun A B f x =>
  match x with
  | Ok a => Ok (f a)
  | Err e => Err e
  end.

(** Modelled from the spec: the manifest classes of [thoth.adviser.python]
    are not among the embedded files.  An unlocked requirements document
    maps package names to constraints, a locked one lists packages with an
    exact version and content hashes. *)
Record Pipfile := mkPipfile {
  pf_packages : list (string * string);
  pf_dev_packages : list (string * string)
}.

(** Modelled from the spec: a locked package, with the attributes
    [_fill_package_digests] reads and appends to. *)
Record PackageVersion := mkPackageVersion {
  name : string;
  locked_version : string;
  hashes : list string
}.

(** Modelled from the spec: the locked requirements document. *)
Record PipfileLock := mkPipfileLock {
  packages : list PackageVersion;
  dev_packages : list PackageVersion
}.

(** Modelled from the spec: [Project(pipfile=..., pipfile_lock=...)], the
    lock being [None] when no locked requirements are given. *)
Record Project := mkProject {
  pipfile : Pipfile;
  pipfile_lock : option PipfileLock
}.

(** The members of the enums of [thoth.adviser.enums] that the choices of
    the [advise] options name. *)
Inductive RecommendationType := STABLE | TESTING | LATEST.
Inductive PythonRecommendationOutput := PIPENV | REQUIREMENTS.

(** [x.name.lower()] *)
Definition recommendation_type_name_lower (t : RecommendationType) : string :=
  match t with
  | STABLE => "stable"
  | TESTING => "testing"
  | LATEST => "latest"
  end.

Definition requirements_format_name_lower (f : PythonRecommendationOutput) : string :=
  match f with
  | PIPENV => "pipenv"
  | REQUIREMENTS => "requirements"
  end.

(** What [DependencyGraph.walk] does when it is iterated to its end: it
    yields projects one at a time and finally stops or raises.  The loop
    consuming it decides how much of this actually happens. *)
Inductive walk_trace :=
| WStop
| WRaise (e : exception)
| WYield (p : Project) (rest : walk_trace).

(** The collaborators of the commands that live outside [cli.py]: the
    filesystem, the manifest parsers and serialisers, the project's
    workflows, [int] and [json.loads], the dependency graph, Amun and the
    package index. *)
Record World := mkWorld {
  classes : class_table;
  read_file : string -> raising string;
  pipfile_from_string : string -> raising Pipfile;
  pipfile_lock_from_string : string -> Pipfile -> raising PipfileLock;
  project_to_dict : Project -> value;
  pipfile_to_dict : Pipfile -> value;
  pipfile_lock_to_dict : PipfileLock -> value;
  pipfile_to_requirements_file : Pipfile -> value;
  pipfile_lock_to_requirements_file : PipfileLock -> value;
  check_provenance : Project -> list string -> raising value;
  project_advise : Project -> option string -> RecommendationType
                   -> raising (value * Project);
  py_int : string -> raising Z;
  json_loads : string -> raising value;
  isdir : string -> bool;
  DependencyGraph : Type;
  from_project : Project -> raising DependencyGraph;
  (** [walk graph decision seed]; [seed] is what [random.seed] was given. *)
  walk : DependencyGraph -> string -> option Z -> walk_trace;
  (** [Some id]: the inspection id of the response; [None]: any failure. *)
  amun_inspect : string -> value -> option string;
  (** The sha256 digests known to the first warehouse. *)
  get_package_hashes : string -> string -> list string
}.

(** Effects visible outside the process, in the order they happen. *)
Inductive event :=
| EvPulled (p : Project)
| EvOutputCall (p : Project) (count : Z)
| EvAmunInspect (url : string) (context : value)
| EvMakedirs (path : string)
| EvToFiles (pipfile_path lock_path : string) (p : Project)
| EvStdout (v : value)
| EvPrinted (result : value) (output : string) (pretty : bool).

Inductive exit :=
| Return (code : Z)
| Propagated (e : exception).

Definition outcome := (list event * exit)%type.

(** [if s:] for an optional string. *)
Definition truthy_str (o : option string) : bool :=
  match o with
  | Some s => negb (String.eqb s "")
  | None => false
  end.

Definition value_of_str (o : option string) : value :=
  match o with
  | Some s => VStr s
  | None => VNone
  end.

(** [s.replace('\\n', '\n')]: a backslash followed by [n] becomes a
    line feed. *)
Fixpoint unescape_newlines (s : string) : string :=
  match s with
  | String "\"%char (String "n"%char rest) =>
      String "010"%char (unescape_newlines rest)
  | String c rest => String c (unescape_newlines rest)
  | EmptyString => EmptyString
  end.

(** [s.split(',')] *)
Fixpoint split_comma (s : string) : list string :=
  match s with
  | EmptyString => [EmptyString]
  | String c rest =>
      if Ascii.eqb c ","%char then EmptyString :: split_comma rest
      else match split_comma rest with
           | h :: t => String c h :: t
           | [] => [String c EmptyString]
           end
  end.

Section WithWorld.
Variable w : World.

Definition _instantiate_project (requirements : string)
    (requirements_locked : option string) (files : bool) : raising Project :=
  '(requirements, requirements_locked) ←
    (if files then
       requirements' ← read_file w requirements;
       match requirements_locked with
       | Some path =>
           if truthy_str requirements_locked
           then locked ← read_file w path; mret (requirements', Some locked)
           else mret (requirements', requirements_locked)
       | None => mret (requirements', None)
       end
     else
       mret (unescape_newlines requirements,
             if truthy_str requirements_locked
             then unescape_newlines <$> requirements_locked
             else requirements_locked));
  pipfile ← pipfile_from_string w requirements;
  pipfile_lock ←
    match requirements_locked with
    | Some locked =>
        if truthy_str requirements_locked
        then Some <$> pipfile_lock_from_string w locked pipfile
        else mret None
    | None => mret None
    end;
  mret (mkProject pipfile pipfile_lock).

(** The report entry both commands build from a caught exception. *)
Definition error_justification (exc : exception) : string :=
  exc_msg exc +:+ " (" +:+ exc_class exc +:+ ")".

(** *** [provenance] *)

Record ProvenanceArgs := mkProvenanceArgs {
  pa_requirements : string;
  pa_requirements_locked : option string;
  pa_whitelisted_sources : option string;
  pa_output : string;
  pa_files : bool;
  pa_no_pretty : bool
}.

(** [whitelisted_sources.split(',') if whitelisted_sources else []] *)
Definition whitelisted (a : ProvenanceArgs) : list string :=
  match pa_whitelisted_sources a with
  | Some s => if truthy_str (Some s) then split_comma s else []
  | None => []
  end.

(** The body of the [try] statement: [result] when it is left and the
    report, or the exception that left it. *)
Definition provenance_try (a : ProvenanceArgs) (result : list (string * value))
  : list (string * value) * raising value :=
  match _instantiate_project (pa_requirements a) (pa_requirements_locked a)
          (pa_files a) with
  | Err exc => (result, Err exc)
  | Ok project =>
      let result := dict_set "input" (project_to_dict w project) result in
      (result, check_provenance w project (whitelisted a))
  end.

(** The [result] dictionary before the [try] statement. *)
Definition provenance_result (a : ProvenanceArgs) : list (string * value) :=
  [("error", VNone);
   ("report", VList []);
   ("parameters",
     VDict [("whitelisted_indexes", VList (VStr <$> whitelisted a))]);
   ("input", VNone)].

Definition provenance (a : ProvenanceArgs) : outcome :=
  let result := provenance_result a in
  let '(result, body) := provenance_try a result in
  let finish result :=
    ([EvPrinted (VDict result) (pa_output a) (negb (pa_no_pretty a))],
     Return (int_is_True (dict_item "error" result))) in
  match body with
  | Err exc =>
      (* except ThothAdviserException as exc *)
      if isinstance (classes w) exc "ThothAdviserException" then
        if isinstance (classes w) exc "InternalError" then ([], Propagated exc)
        else
          let result := dict_set "error" (VBool true) result in
          let result :=
            dict_set "report"
              (VList [VDict [("type", VStr "ERROR");
                             ("justification", VStr (error_justification exc))]])
              result in
          finish result
      else ([], Propagated exc)
  | Ok report =>
      let result := dict_set "error" (VBool false) result in
      let result := dict_set "report" report result in
      finish result
  end.

(** *** [advise] *)

(** [recommendation_type] and [requirements_format] are the enum members
    [by_name] returns for the option strings [click.Choice] admits. *)
Record AdviseArgs := mkAdviseArgs {
  aa_requirements : string;
  aa_requirements_format : PythonRecommendationOutput;
  aa_requirements_locked : option string;
  aa_recommendation_type : RecommendationType;
  aa_runtime_environment : option string;
  aa_output : string;
  aa_no_pretty : bool;
  aa_files : bool
}.

Definition AttributeError (msg : string) : exception :=
  Exception "AttributeError" msg.

Definition advise_try (a : AdviseArgs) (result : list (string * value))
  : list (string * value) * raising (value * Project) :=
  match _instantiate_project (aa_requirements a) (aa_requirements_locked a)
          (aa_files a) with
  | Err exc => (result, Err exc)
  | Ok project =>
      let result := dict_set "input" (project_to_dict w project) result in
      (result,
       project_advise w project (aa_runtime_environment a)
         (aa_recommendation_type a))
  end.

Definition advise_result (a : AdviseArgs) : list (string * value) :=
  [("error", VNone);
   ("report", VList []);
   ("parameters",
     VDict [("runtime_environment", value_of_str (aa_runtime_environment a));
            ("recommendation_type",
              VStr (recommendation_type_name_lower (aa_recommendation_type a)));
            ("requirements_format",
              VStr (requirements_format_name_lower (aa_requirements_format a)))]);
   ("input", VNone);
   ("output", VDict [("requirements", VNone); ("requirements_locked", VNone)])].

Definition advise (a : AdviseArgs) : outcome :=
  let result := advise_result a in
  let '(result, body) := advise_try a result in
  let finish result :=
    ([EvPrinted (VDict result) (aa_output a) (negb (aa_no_pretty a))],
     Return (int_is_True (dict_item "error" result))) in
  match body with
  | Err exc =>
      if isinstance (classes w) exc "ThothAdviserException" then
        if isinstance (classes w) exc "InternalError" then ([], Propagated exc)
        else
          let result := dict_set "error" (VBool true) result in
          let result :=
            dict_set "report"
              (VList [VDict [("justification", VStr (error_justification exc));
                             ("type", VStr "ERROR")]])
              result in
          finish result
      else ([], Propagated exc)
  | Ok (report, project) =>
      let result := dict_set "error" (VBool false) result in
      if truthy report then
        match pipfile_lock project with
        | None =>
            ([], Propagated
                   (AttributeError
                      match aa_requirements_format a with
                      | PIPENV => "'NoneType' object has no attribute 'to_dict'"
                      | REQUIREMENTS =>
                          "'NoneType' object has no attribute 'to_requirements_file'"
                      end))
        | Some lock =>
            let '(output_requirements, output_requirements_locked) :=
              match aa_requirements_format a with
              | PIPENV =>
                  (pipfile_to_dict w (pipfile project),
                   pipfile_lock_to_dict w lock)
              | REQUIREMENTS =>
                  (pipfile_to_requirements_file w (pipfile project),
                   pipfile_lock_to_requirements_file w lock)
              end in
            let result := dict_set "report" report result in
            let result :=
              dict_set_in "output" "requirements" output_requirements result in
            let result :=
              dict_set_in "output" "requirements_locked"
                output_requirements_locked result in
            finish result
        end
      else finish result
  end.

(** *** [dependency_monkey] *)

Record MonkeyArgs := mkMonkeyArgs {
  requirements : string;
  stack_output : string;
  report_output : string;
  files : bool;
  seed : option string;
  decision : string;
  dry_run : bool;
  context : option string;
  no_pretty : bool;
  count : option string
}.

(** [int(x) if x else None] *)
Definition optional_int (x : option string) : raising (option Z) :=
  match x with
  | Some s => if truthy_str (Some s) then Some <$> py_int w s else mret None
  | None => mret None
  end.

Definition value_of_int (o : option Z) : value :=
  match o with
  | Some z => VInt z
  | None => VNone
  end.

(** [f'{count:05d}'] *)
Definition format_05d (n : Z) : string :=
  let sign := if n <? 0 then "-" else "" in
  let digits := pretty (Z.abs_N n) in
  sign
  +:+ String.concat ""
        (replicate (5 - String.length sign - String.length digits)%nat "0")
  +:+ digits.

Fixpoint ends_with_slash (s : string) : bool :=
  match s with
  | EmptyString => false
  | String c EmptyString => Ascii.eqb c "/"%char
  | String _ rest => ends_with_slash rest
  end.

(** [os.path.join(a, b)] on a POSIX system *)
Definition path_join (a b : string) : string :=
  if String.prefix "/" b then b
  else if String.eqb a "" || ends_with_slash a then a +:+ b
  else a +:+ "/" +:+ b.

(** The three stack emission sinks [output_function] can be bound to. *)
Inductive sink :=
| AmunSink (output : string)
| StdoutSink
| DirectorySink (output : string).

Definition TypeError (msg : string) : exception := Exception "TypeError" msg.

(** [_dm_amun_inspect_wrapper]: the context dictionary is the object
    bound by [partial], every call writes into it. *)
Definition _dm_amun_inspect_wrapper (output : string) (context : value)
    (generated_project : Project) (count : Z)
  : list event * value * raising (option string) :=
  match context with
  | VDict d =>
      let context := VDict (dict_set "python" (project_to_dict w generated_project) d) in
      ([EvAmunInspect output context], context, Ok (amun_inspect w output context))
  | _ =>
      ([], context, Err (TypeError "object does not support item assignment"))
  end.

Definition _dm_amun_directory_output (output : string)
    (generated_project : Project) (count : Z) : list event * string :=
  let path := path_join output (format_05d count) in
  ([EvMakedirs path;
    EvToFiles (path_join path "Pipfile") (path_join path "Pipfile.lock")
      generated_project],
   path).

Definition _dm_stdout_output (generated_project : Project) (count : Z)
  : list event * option string :=
  ([EvStdout (project_to_dict w generated_project)], None).

Definition output_function (s : sink) (context : value)
    (generated_project : Project) (count : Z)
  : list event * value * raising (option string) :=
  match s with
  | AmunSink output =>
      _dm_amun_inspect_wrapper output context generated_project count
  | StdoutSink =>
      let '(evs, entry) := _dm_stdout_output generated_project count in
      (evs, context, Ok entry)
  | DirectorySink output =>
      let '(evs, path) := _dm_amun_directory_output output generated_project count in
      (evs, context, Ok (Some path))
  end.

Definition _fill_package_digests (generated_project : Project) : raising Project :=
  match pipfile_lock generated_project with
  | None => Err (AttributeError "'NoneType' object has no attribute 'packages'")
  | Some lock =>
      let fill package_version :=
        mkPackageVersion (name package_version) (locked_version package_version)
          (hashes package_version
             ++ ((fun sha256 => "sha256:" +:+ sha256)
                   <$> get_package_hashes w (name package_version)
                         (locked_version package_version))) in
      Ok (mkProject (pipfile generated_project)
            (Some (mkPipfileLock (fill <$> packages lock)
                     (fill <$> dev_packages lock))))
  end.

(** The objects the loop of [dependency_monkey] works on: the effects so
    far, the [result] dictionary, the context dictionary shared between
    [output_function] and [result['parameters']['context']], and the
    local [computed]. *)
Record monkey_state := mkMonkeyState {
  ms_events : list event;
  ms_result : list (string * value);
  ms_context : value;
  ms_computed : Z
}.

(** [count is not None and computed >= count] *)
Definition count_reached (count : option Z) (computed : Z) : bool :=
  match count with
  | Some c => c <=? computed
  | None => false
  end.

(** One [output_function] call of the loop and [result['output']]. *)
Definition emit (s : sink) (generated_project : Project) (st : monkey_state)
  : monkey_state * option exception :=
  let '(evs, context, entry) :=
    output_function s (ms_context st) generated_project (ms_computed st) in
  let st :=
    mkMonkeyState
      (ms_events st ++ EvOutputCall generated_project (ms_computed st) :: evs)
      (dict_set_in "parameters" "context" context (ms_result st))
      context (ms_computed st) in
  match entry with
  | Err exc => (st, Some exc)
  | Ok entry =>
      if truthy_str entry then
        (mkMonkeyState (ms_events st)
           (dict_append "output" (value_of_str entry) (ms_result st))
           (ms_context st) (ms_computed st),
         None)
      else (st, None)
  end.

(** [for generated_project in dependency_graph.walk(decision_function)]:
    returns the state when the loop is left, the exception that left it
    if any, and the part of the generator that was never run. *)
Fixpoint walk_loop (s : sink) (dry_run : bool) (count : option Z)
    (generator : walk_trace) (st : monkey_state)
  : monkey_state * option exception * walk_trace :=
  match generator with
  | WStop => (st, None, WStop)
  | WRaise exc => (st, Some exc, WStop)
  | WYield generated_project rest =>
      let st :=
        mkMonkeyState (ms_events st ++ [EvPulled generated_project])
          (ms_result st) (ms_context st) (ms_computed st + 1) in
      match _fill_package_digests generated_project with
      | Err exc => (st, Some exc, rest)
      | Ok generated_project =>
          let '(st, raised) :=
            if negb dry_run then emit s generated_project st else (st, None) in
          match raised with
          | Some exc => (st, Some exc, rest)
          | None =>
              if count_reached count (ms_computed st) then (st, None, rest)
              else walk_loop s dry_run count rest st
          end
      end
  end.

(** Lines 346-369: the sink and the context for the given options, or the
    exit code of an early return. *)
Definition select_output (stack_output : string) (context : option string)
  : Z + (list event * value * sink) :=
  if String.prefix "https://" stack_output || String.prefix "http://" stack_output
  then
    if truthy_str context then
      match json_loads w (default "" context) with
      | Err exc => inl 1
      | Ok context => inr ([], context, AmunSink stack_output)
      end
    else inr ([], VDict [], AmunSink stack_output)
  else if String.eqb stack_output "-" then
    inr ([], value_of_str context, StdoutSink)
  else
    if truthy_str context then inl 2
    else
      inr (if negb (isdir w stack_output) then [EvMakedirs stack_output] else [],
           value_of_str context, DirectorySink stack_output).

(** What lines 332-369 leave behind when they do not return early. *)
Record monkey_setup := mkMonkeySetup {
  su_project : Project;
  su_seed : option Z;
  su_count : option Z;
  su_events : list event;
  su_context : value;
  su_output_function : sink
}.

(** Lines 332-369 of [dependency_monkey]. *)
Definition monkey_prepare (a : MonkeyArgs) : outcome + monkey_setup :=
  match _instantiate_project (requirements a) None (files a) with
  | Err exc => inl ([], Propagated exc)
  | Ok project =>
  match optional_int (seed a) with
  | Err exc => inl ([], Propagated exc)
  | Ok seed =>
  match optional_int (count a) with
  | Err exc => inl ([], Propagated exc)
  | Ok count =>
  (* decision_function = DECISISON_FUNCTIONS[decision]; random.seed(seed) *)
  if match count with Some c => c <=? 0 | None => false end
  then inl ([], Return 3)
  else
    match select_output (stack_output a) (context a) with
    | inl code => inl ([], Return code)
    | inr (evs, context, output_function) =>
        inr (mkMonkeySetup project seed count evs context output_function)
    end
  end
  end
  end.

(** The [result] dictionary of line 371. *)
Definition monkey_result (a : MonkeyArgs) (su : monkey_setup)
  : list (string * value) :=
  [("error", VBool false);
   ("report", VList []);
   ("parameters",
     VDict [("requirements", pipfile_to_dict w (pipfile (su_project su)));
            ("seed", value_of_int (su_seed su));
            ("decision", VStr (decision a));
            ("context", su_context su);
            ("stack_output", VStr (stack_output a));
            ("report_output", VStr (report_output a));
            ("files", VBool (files a));
            ("dry_run", VBool (dry_run a));
            ("no_pretty", VBool (no_pretty a));
            ("count", value_of_int (su_count su))]);
   ("input", VNone);
   ("output", VList []);
   ("computed", VNone)].

(** The body of the [try] statement, lines 393-408. *)
Definition monkey_try (a : MonkeyArgs) (su : monkey_setup) (st : monkey_state)
  : monkey_state * option exception :=
  match from_project w (su_project su) with
  | Err exc => (st, Some exc)
  | Ok dependency_graph =>
      let '(st, raised, _) :=
        walk_loop (su_output_function su) (dry_run a) (su_count su)
          (walk w dependency_graph (decision a) (su_seed su)) st in
      match raised with
      | Some exc => (st, Some exc)
      | None =>
          (mkMonkeyState (ms_events st)
             (dict_set "computed" (VInt (ms_computed st)) (ms_result st))
             (ms_context st) (ms_computed st),
           None)
      end
  end.

(** The state in which the [try] statement is entered ([computed = 0]). *)
Definition monkey_start (a : MonkeyArgs) (su : monkey_setup) : monkey_state :=
  mkMonkeyState (su_events su) (monkey_result a su) (su_context su) 0.

(** Lines 371-422. *)
Definition monkey_main (a : MonkeyArgs) (su : monkey_setup) : outcome :=
  let st := monkey_start a su in
  let '(st, raised) := monkey_try a su st in
  let finish result : outcome :=
    (ms_events st
       ++ [EvPrinted (VDict result) (report_output a) (negb (no_pretty a))],
     Return (int_is_True (dict_item "error" result)))%list in
  match raised with
  | Some exc =>
      (* except SolverException as exc *)
      if isinstance (classes w) exc "SolverException"
      then finish (dict_set "error" (VBool true) (ms_result st))
      else (ms_events st, Propagated exc)
  | None => finish (ms_result st)
  end.

Definition dependency_monkey (a : MonkeyArgs) : outcome :=
  match monkey_prepare a with
  | inl early => early
  | inr su => monkey_main a su
  end.

(** *** [submit_amun] *)

Record SubmitArgs := mkSubmitArgs {
  sa_requirements : string;
  sa_requirements_locked : string;
  sa_stack_output : string;
  sa_files : bool;
  sa_context : option string;
  sa_no_pretty : bool
}.

(** The command returns [None]; the inspection id is dropped. *)
Definition submit_amun (a : SubmitArgs) : list event * completion :=
  match _instantiate_project (sa_requirements a) (Some (sa_requirements_locked a))
          (sa_files a) with
  | Err exc => ([], Raised exc)
  | Ok project =>
      (* context = json.loads(context) if context else {} *)
      match (if truthy_str (sa_context a)
             then json_loads w (default "" (sa_context a))
             else Ok (VDict [])) with
      | Err exc => ([], Raised exc)
      | Ok context =>
          let '(evs, _, inspection_id) :=
            _dm_amun_inspect_wrapper (sa_stack_output a) context project 0 in
          match inspection_id with
          | Err exc => (evs, Raised exc)
          | Ok _ => (evs, Returned)
          end
      end
  end.

End WithWorld.

(** The world in which the dependency graph walks as [f] says and
    everything else is as in [w]. *)
Definition with_walk (w : World)
    (f : DependencyGraph w -> string -> option Z -> walk_trace) : World :=
  mkWorld (classes w) (read_file w) (pipfile_from_string w)
    (pipfile_lock_from_string w) (project_to_dict w) (pipfile_to_dict w)
    (pipfile_lock_to_dict w) (pipfile_to_requirements_file w)
    (pipfile_lock_to_requirements_file w) (check_provenance w) (project_advise w)
    (py_int w) (json_loads w) (isdir w) (DependencyGraph w) (from_project w) f
    (amun_inspect w) (get_package_hashes w).

(** The walk that yields the projects [ps] and then goes on as [tail]. *)
Definition yields (ps : list Project) (tail : walk_trace) : walk_trace :=
  foldr WYield tail ps.

(** The generator was advanced and yielded a project. *)
Definition is_pulled (e : event) : bool :=
  match e with EvPulled _ => true | _ => false end.

(** [output_function] was called. *)
Definition is_output_call (e : event) : bool :=
  match e with EvOutputCall _ _ => true | _ => false end.

Definition is_printed (e : event) : bool :=
  match e with EvPrinted _ _ _ => true | _ => false end.

Definition count_events (p : event -> bool) (evs : list event) : Z :=
  Z.of_nat (length (filter (fun e => p e = true) evs)).

(** The results a run handed to [print_command_result]. *)
Definition printed_results (out : outcome) : list value :=
  omap (fun e => match e with EvPrinted result _ _ => Some result | _ => None end)
    out.1.

End Cli.

(** ** A small concrete world

    Used to run the commands on concrete inputs: two pinned stacks of one
    package, an Amun endpoint that answers with an inspection id, a JSON
    reader that knows the empty object, and [int] on a few literals. *)

Module Demo.
Import Py Cli.

Definition classes (c : string) : list string :=
  if String.eqb c "InternalError" then ["ThothAdviserException"; "Exception"]
  else if String.eqb c "NotAcceptable" then ["ThothAdviserException"; "Exception"]
  else if String.eqb c "UnsupportedConfiguration"
  then ["ThothAdviserException"; "Exception"]
  else if String.eqb c "ThothAdviserException" then ["Exception"]
  else if String.eqb c "NoReleasesFound" then ["SolverException"; "Exception"]
  else if String.eqb c "SolverException" then ["Exception"]
  else [].

Definition the_pipfile : Pipfile := mkPipfile [("a", ">=1,<3")] [].

Definition stack (version : string) : Project :=
  mkProject the_pipfile
    (Some (mkPipfileLock [mkPackageVersion "a" version []] [])).

Definition py_int (s : string) : raising Z :=
  if String.eqb s "-1" then Ok (-1)
  else if String.eqb s "0" then Ok 0
  else if String.eqb s "1" then Ok 1
  else if String.eqb s "2" then Ok 2
  else if String.eqb s "3" then Ok 3
  else Err (Exception "ValueError" "invalid literal for int() with base 10").

Definition json_loads (s : string) : raising value :=
  if String.eqb s "{}" then Ok (VDict [])
  else Err (Exception "JSONDecodeError" "Expecting value").

Definition lock_to_value (l : PipfileLock) : value :=
  VDict ((fun pv => (name pv, VStr (locked_version pv))) <$> packages l).

Definition project_to_dict (p : Project) : value :=
  match pipfile_lock p with
  | Some l => lock_to_value l
  | None => VNone
  end.

(** The project the demo requirements are instantiated to. *)
Definition the_pipfile_project : Project := mkProject the_pipfile None.

(** [enumeration] is what the walk does; [workflow] is what
    [check_provenance] and [advise] do. *)
Definition world (enumeration : walk_trace) (workflow : raising value) : World :=
  {| Cli.classes := classes;
     read_file := fun _ => Err (Exception "FileNotFoundError" "No such file");
     pipfile_from_string := fun _ => Ok the_pipfile;
     pipfile_lock_from_string := fun _ _ => Ok (mkPipfileLock [] []);
     Cli.project_to_dict := project_to_dict;
     pipfile_to_dict := fun _ => VDict [("a", VStr ">=1,<3")];
     pipfile_lock_to_dict := lock_to_value;
     pipfile_to_requirements_file := fun _ => VStr "a>=1,<3";
     pipfile_lock_to_requirements_file := fun _ => VStr "a==1";
     check_provenance := fun _ _ => workflow;
     project_advise := fun p _ _ => (fun report => (report, p)) <$> workflow;
     Cli.py_int := py_int;
     Cli.json_loads := json_loads;
     isdir := fun _ => true;
     DependencyGraph := Project;
     from_project := fun p => Ok p;
     walk := fun _ _ _ => enumeration;
     amun_inspect := fun _ _ => Some "inspection-a";
     get_package_hashes := fun _ _ => ["0f0f"] |}.

Definition monkey_args (stack_output : string) (context count : option string)
    (dry_run : bool) : MonkeyArgs :=
  mkMonkeyArgs "a>=1,<3" stack_output "-" false None "all" dry_run context false count.

Definition provenance_args : ProvenanceArgs :=
  mkProvenanceArgs "a>=1,<3" (Some "a==1") None "-" false false.

Definition advise_args : AdviseArgs :=
  mkAdviseArgs "a>=1,<3" PIPENV None STABLE None "-" false false.

Definition no_releases : exception :=
  Exception "NoReleasesFound" "No releases found for package a".

Definition two_stacks : walk_trace := WYield (stack "1") (WYield (stack "2") WStop).

(** The walk yields one stack and then fails in the solver. *)
Definition failing_walk : walk_trace := WYield (stack "1") (WRaise no_releases).

Definition entry (pkg : option string) (t msg : string) : Entry :=
  mkEntry pkg t msg None.

Definition some_state : State :=
  mkState {["a" := "1"]} ["b"] 0%Qc
    [entry (Some "b") "INFO" "x"; entry None "WARNING" "y";
   entry (Some "a") "INFO" "z"; entry None "ERROR" "y"].

Definition underspecified : Context :=
  mkContext (mkRuntimeEnvironment (mkOS (Some "rhel") None) (Some "3.6")) [].

Definition is_fully_specified (env : RuntimeEnvironment) : bool :=
  match os_name (operating_system env), os_version (operating_system env),
        python_version env with
  | Some _, Some _, Some _ => true
  | _, _, _ => false
  end.

Definition repr_str (s : string) : string := "'" +:+ s +:+ "'".

Definition jl (s : string) : string := "https://thoth-station.ninja/j/" +:+ s.

End Demo.

(** * Properties *)

Import Py.

(** ** The order on sort keys *)

Section KeyOrder.

Lemma string_compare_refl (s : string) : String.compare s s = Eq.
Proof. by apply String_as_OT.cmp_eq. Qed.

Lemma string_compare_eq (s t : string) : String.compare s t = Eq -> s = t.
Proof. apply String_as_OT.cmp_eq. Qed.

Lemma string_compare_lt_trans (s t u : string) :
  String.compare s t = Lt -> String.compare t u = Lt -> String.compare s u = Lt.
Proof.
  intros Hst Htu. apply String_as_OT.cmp_lt.
  eapply String_as_OT.lt_trans; apply String_as_OT.cmp_lt; eassumption.
Qed.

Lemma key_compare_refl (k : key) : key_compare k k = Eq.
Proof.
  destruct k as [[a b] c]. unfold key_compare.
  by rewrite !string_compare_refl.
Qed.

Lemma key_compare_eq (k1 k2 : key) : key_compare k1 k2 = Eq -> k1 = k2.
Proof.
  destruct k1 as [[a1 b1] c1], k2 as [[a2 b2] c2]. unfold key_compare.
  destruct (String.compare a1 a2) eqn:Ha; try discriminate.
  destruct (String.compare b1 b2) eqn:Hb; try discriminate.
  intros Hc.
  apply string_compare_eq in Ha, Hb, Hc. by subst.
Qed.

Lemma key_compare_antisym (k1 k2 : key) :
  key_compare k1 k2 = CompOpp (key_compare k2 k1).
Proof.
  destruct k1 as [[a1 b1] c1], k2 as [[a2 b2] c2]. unfold key_compare.
  rewrite (String.compare_antisym a1 a2), (String.compare_antisym b1 b2),
    (String.compare_antisym c1 c2).
  destruct (String.compare a2 a1); simpl; try done.
  destruct (String.compare b2 b1); simpl; done.
Qed.

Lemma key_compare_lt_trans (k1 k2 k3 : key) :
  key_compare k1 k2 = Lt -> key_compare k2 k3 = Lt -> key_compare k1 k3 = Lt.
Proof.
  destruct k1 as [[a1 b1] c1], k2 as [[a2 b2] c2], k3 as [[a3 b3] c3].
  unfold key_compare.
  destruct (String.compare a1 a2) eqn:Ha12; try discriminate.
  - apply string_compare_eq in Ha12 as ->.
    destruct (String.compare a2 a3) eqn:Ha23; try discriminate; [|done].
    destruct (String.compare b1 b2) eqn:Hb12; try discriminate.
    + apply string_compare_eq in Hb12 as ->.
      destruct (String.compare b2 b3) eqn:Hb23; try discriminate; [|done].
      apply string_compare_lt_trans.
    + intros _.
      destruct (String.compare b2 b3) eqn:Hb23; try discriminate.
      * apply string_compare_eq in Hb23 as <-. by rewrite Hb12.
      * by rewrite (string_compare_lt_trans _ _ _ Hb12 Hb23).
  - intros _.
    destruct (String.compare a2 a3) eqn:Ha23; try discriminate.
    + apply string_compare_eq in Ha23 as <-. by rewrite Ha12.
    + by rewrite (string_compare_lt_trans _ _ _ Ha12 Ha23).
Qed.

Lemma key_ltb_false_le (k1 k2 : key) : key_ltb k1 k2 = false <-> key_le k2 k1.
Proof.
  unfold key_ltb, key_le. rewrite (key_compare_antisym k2 k1).
  destruct (key_compare k1 k2); simpl; split; intros; congruence.
Qed.

Lemma key_ltb_true_lt (k1 k2 : key) : key_ltb k1 k2 = true <-> key_compare k1 k2 = Lt.
Proof. unfold key_ltb. destruct (key_compare k1 k2); split; congruence. Qed.

Lemma key_ltb_irrefl (k : key) : key_ltb k k = false.
Proof. unfold key_ltb. by rewrite key_compare_refl. Qed.

#[export] Instance key_le_refl : Reflexive key_le.
Proof. intros k. unfold key_le. by rewrite key_compare_refl. Qed.

#[export] Instance key_le_trans : Transitive key_le.
Proof.
  intros k1 k2 k3. unfold key_le. intros H12 H23.
  destruct (key_compare k1 k2) eqn:E12; [| |done].
  - by apply key_compare_eq in E12 as ->.
  - destruct (key_compare k2 k3) eqn:E23; [| |done].
    + apply key_compare_eq in E23 as <-. by rewrite E12.
    + by rewrite (key_compare_lt_trans _ _ _ E12 E23).
Qed.

#[export] Instance key_le_total : Total key_le.
Proof.
  intros k1 k2. unfold key_le. rewrite (key_compare_antisym k2 k1).
  destruct (key_compare k1 k2); simpl; auto.
Qed.

End KeyOrder.

(** ** [list.sort(key=...)] *)

Section SortByKey.
Context {A : Type} (f : A -> key).

(** [x] may stand in front of [y] in a list sorted by key. *)
Definition key_ordered (x y : A) : Prop := key_le (f x) (f y).

#[local] Instance key_ordered_trans : Transitive key_ordered.
Proof. intros x y z. unfold key_ordered. apply key_le_trans. Qed.

Lemma insert_by_key_perm (x : A) (l : list A) : insert_by_key f x l ≡ₚ x :: l.
Proof.
  induction l as [|y l IH]; simpl; [done|].
  destruct (key_ltb (f y) (f x)); [|done].
  rewrite IH. apply Permutation_swap.
Qed.

Lemma sort_by_key_perm (l : list A) : sort_by_key f l ≡ₚ l.
Proof.
  induction l as [|x l IH]; simpl; [done|].
  by rewrite insert_by_key_perm, IH.
Qed.

Lemma insert_by_key_hd (x y : A) (l : list A) :
  key_ordered y x -> HdRel key_ordered y l -> HdRel key_ordered y (insert_by_key f x l).
Proof.
  intros Hyx Hl. destruct l as [|z l]; simpl; [by constructor|].
  destruct (key_ltb (f z) (f x)); constructor; [|done].
  by inversion Hl.
Qed.

Lemma insert_by_key_sorted (x : A) (l : list A) :
  Sorted key_ordered l -> Sorted key_ordered (insert_by_key f x l).
Proof.
  induction l as [|y l IH]; simpl; intros Hl.
  - by repeat constructor.
  - destruct (key_ltb (f y) (f x)) eqn:Hlt.
    + inversion Hl; subst. constructor; [by apply IH|].
      apply insert_by_key_hd; [|done].
      unfold key_ordered, key_le.
      apply key_ltb_true_lt in Hlt. by rewrite Hlt.
    + constructor; [done|]. constructor. by apply key_ltb_false_le.
Qed.

Lemma sort_by_key_sorted (l : list A) : Sorted key_ordered (sort_by_key f l).
Proof.
  induction l as [|x l IH]; simpl; [constructor|].
  by apply insert_by_key_sorted.
Qed.

Lemma sort_by_key_strongly_sorted (l : list A) :
  StronglySorted key_ordered (sort_by_key f l).
Proof. apply Sorted_StronglySorted; [apply _|apply sort_by_key_sorted]. Qed.

(** On a sorted list the sort moves nothing. *)
Lemma sort_by_key_fixpoint (l : list A) :
  Sorted key_ordered l -> sort_by_key f l = l.
Proof.
  induction l as [|x l IH]; simpl; [done|].
  intros Hl. inversion Hl as [|? ? Hl' Hhd]; subst.
  rewrite (IH Hl').
  destruct Hhd as [|y l Hxy]; simpl; [done|].
  by apply key_ltb_false_le in Hxy as ->.
Qed.

Lemma sort_by_key_idempotent (l : list A) :
  sort_by_key f (sort_by_key f l) = sort_by_key f l.
Proof. apply sort_by_key_fixpoint, sort_by_key_sorted. Qed.

(** Stability: the elements with a given key keep their order. *)
Lemma insert_by_key_stable (k : key) (x : A) (l : list A) :
  filter (fun y => f y = k) (insert_by_key f x l) = filter (fun y => f y = k) (x :: l).
Proof.
  induction l as [|y l IH]; simpl; [done|].
  destruct (key_ltb (f y) (f x)) eqn:Hlt; [|done].
  rewrite !filter_cons in *.
  destruct (decide (f y = k)) as [Hy|Hy]; destruct (decide (f x = k)) as [Hx|Hx];
    rewrite ?IH; try done.
  rewrite Hy, Hx, key_ltb_irrefl in Hlt. done.
Qed.

Lemma sort_by_key_stable (k : key) (l : list A) :
  filter (fun y => f y = k) (sort_by_key f l) = filter (fun y => f y = k) l.
Proof.
  induction l as [|x l IH]; simpl; [done|].
  rewrite insert_by_key_stable, !filter_cons. by rewrite IH.
Qed.

End SortByKey.

(** ** [SortJustificationsWrap] *)

(** The key the wrap sorts by: the package name, or the empty string when
    the entry has none, then the type, then the message. *)
Lemma sort_key_components (i : Entry) :
  SortJustificationsWrap.sort_key i
  = (match package_name i with Some n => n | None => "" end,
     type i, message i).
Proof. by destruct i as [[n|] t m l]. Qed.

(** In a strongly sorted list an element is related to every later one. *)
Lemma StronglySorted_lookup_lt {A : Type} (R : relation A) (l : list A)
    (i j : nat) (x y : A) :
  StronglySorted R l -> (i < j)%nat -> l !! i = Some x -> l !! j = Some y -> R x y.
Proof.
  intros Hl. revert i j. induction Hl as [|z l Hl IH Hall]; intros i j Hij Hi Hj.
  - done.
  - destruct j as [|j]; [lia|]. destruct i as [|i]; simpl in *.
    + injection Hi as <-. by eapply (proj1 (Forall_lookup _ _) Hall).
    + apply (IH i j); [lia|done|done].
Qed.

(** What [<=] on tuples of three strings says, component by component. *)
Lemma key_le_components (a1 b1 c1 a2 b2 c2 : string) :
  key_le (a1, b1, c1) (a2, b2, c2)
  <-> String.compare a1 a2 = Lt
      \/ (a1 = a2
          /\ (String.compare b1 b2 = Lt
              \/ (b1 = b2 /\ String.compare c1 c2 <> Gt))).
Proof.
  unfold key_le, key_compare. split.
  - destruct (String.compare a1 a2) eqn:Ha; [|by left|done].
    apply string_compare_eq in Ha as ->. intros Hle. right. split; [done|].
    destruct (String.compare b1 b2) eqn:Hb; [|by left|done].
    apply string_compare_eq in Hb as ->. right. by split.
  - intros [->|[-> [->|[-> Hc]]]]; [done| |].
    + by rewrite string_compare_refl.
    + by rewrite !string_compare_refl.
Qed.

(** C1: running the wrap on the state a first run left behind changes
    nothing (the wrap is idempotent); after one run the justification list
    holds the entries it held before, each as often as before, and it is
    sorted by the key (package name or [""] when absent, then type, then
    message): of two entries of the result, the earlier one has the smaller
    package name in the order of strings, or the same package name and the
    smaller type, or the same package name and type and a message that is not
    greater. *)
Theorem sort_justifications_idempotent_sorted (state : State) :
  SortJustificationsWrap.run (SortJustificationsWrap.run state).1
  = SortJustificationsWrap.run state
  /\ justification (SortJustificationsWrap.run state).1 ≡ₚ justification state
  /\ (forall (i j : nat) (x y : Entry),
        (i < j)%nat ->
        justification (SortJustificationsWrap.run state).1 !! i = Some x ->
        justification (SortJustificationsWrap.run state).1 !! j = Some y ->
        String.compare (default "" (package_name x)) (default "" (package_name y))
        = Lt
        \/ (default "" (package_name x) = default "" (package_name y)
            /\ (String.compare (type x) (type y) = Lt
                \/ (type x = type y
                    /\ String.compare (message x) (message y) <> Gt)))).
Proof.
  unfold SortJustificationsWrap.run; simpl. split; [|split].
  - by rewrite sort_by_key_idempotent.
  - apply sort_by_key_perm.
  - intros i j x y Hij Hx Hy.
    apply key_le_components.
    apply (StronglySorted_lookup_lt
             (key_ordered SortJustificationsWrap.sort_key) _ i j x y
             (sort_by_key_strongly_sorted _ _) Hij Hx Hy).
Qed.

(** The demo state has an entry without package name behind one with a
    name; after the run the two entries without name come first, the
    ["ERROR"] one before the ["WARNING"] one, then [a] and [b]. *)
Lemma sort_justifications_idempotent_sorted_witness :
  justification (SortJustificationsWrap.run Demo.some_state).1
  = [Demo.entry None "ERROR" "y"; Demo.entry None "WARNING" "y";
     Demo.entry (Some "a") "INFO" "z"; Demo.entry (Some "b") "INFO" "x"]
  /\ ("" = ""
      /\ (String.compare "ERROR" "WARNING" = Lt
          \/ ("ERROR" = "WARNING" /\ String.compare "y" "y" <> Gt)))
  /\ String.compare "" "a" = Lt.
Proof.
  split; [reflexivity|]. split.
  - destruct (proj2 (proj2 (sort_justifications_idempotent_sorted Demo.some_state))
                0%nat 1%nat (Demo.entry None "ERROR" "y")
                (Demo.entry None "WARNING" "y") ltac:(lia) eq_refl eq_refl)
      as [Hlt|Hrest]; [discriminate Hlt|exact Hrest].
  - destruct (proj2 (proj2 (sort_justifications_idempotent_sorted Demo.some_state))
                1%nat 2%nat (Demo.entry None "WARNING" "y")
                (Demo.entry (Some "a") "INFO" "z") ltac:(lia) eq_refl eq_refl)
      as [Hlt|[Heq _]]; [exact Hlt|discriminate Heq].
Defined.

(** C7: the wrap returns normally for every state, so it never raises
    [NotAcceptable]; afterwards the justification list is a permutation of the
    one before, and [resolved], [unresolved] and [score] are what they were. *)
Theorem sort_justifications_frame (state : State) :
  (SortJustificationsWrap.run state).2 = Returned
  /\ (forall msg, (SortJustificationsWrap.run state).2 <> Raised (NotAcceptable msg))
  /\ justification (SortJustificationsWrap.run state).1 ≡ₚ justification state
  /\ resolved (SortJustificationsWrap.run state).1 = resolved state
  /\ unresolved (SortJustificationsWrap.run state).1 = unresolved state
  /\ score (SortJustificationsWrap.run state).1 = score state.
Proof.
  unfold SortJustificationsWrap.run; simpl.
  repeat split; try done. apply sort_by_key_perm.
Qed.

(** C9: whatever the kind of pipeline, the wrap's [should_include] yields
    one empty parameter-set when its class is not yet included and nothing
    when it is; in a pipeline that is not an adviser pipeline the boot
    declines where the wrap still registers. *)
Theorem sort_justifications_should_include (cls : unit_class)
    (builder_context : PipelineBuilderContext) :
  (cls ∉ included builder_context ->
     SortJustificationsWrap.should_include cls builder_context = [∅])
  /\ (cls ∈ included builder_context ->
        SortJustificationsWrap.should_include cls builder_context = [])
  /\ (forall kind,
        SortJustificationsWrap.should_include cls
          (mkBuilderContext kind (included builder_context))
        = SortJustificationsWrap.should_include cls builder_context)
  /\ (cls ∉ included builder_context -> run_kind builder_context <> Advise ->
        SortJustificationsWrap.should_include cls builder_context = [∅]
        /\ FullySpecifiedEnvironment.should_include cls builder_context = []).
Proof.
  unfold SortJustificationsWrap.should_include,
    FullySpecifiedEnvironment.should_include, is_included, is_adviser_pipeline.
  simpl. split; [|split; [|split]].
  - intros Hnot. by rewrite bool_decide_eq_false_2.
  - intros Hin. by rewrite bool_decide_eq_true_2.
  - done.
  - intros Hnot Hkind. rewrite (bool_decide_eq_false_2 _ Hnot).
    split; [done|]. by destruct (run_kind builder_context).
Qed.

Lemma sort_justifications_should_include_witness :
  SortJustificationsWrap.should_include "SortJustificationsWrap"
    (mkBuilderContext DependencyMonkey ["FullySpecifiedEnvironment"]) = [∅]
  /\ SortJustificationsWrap.should_include "SortJustificationsWrap"
       (mkBuilderContext Advise ["SortJustificationsWrap"]) = [].
Proof.
  split.
  - apply (proj1 (sort_justifications_should_include "SortJustificationsWrap"
                      (mkBuilderContext DependencyMonkey ["FullySpecifiedEnvironment"]))).
    simpl. apply (bool_decide_unpack _). reflexivity.
  - apply (proj1 (proj2 (sort_justifications_should_include "SortJustificationsWrap"
                           (mkBuilderContext Advise ["SortJustificationsWrap"])))).
    simpl. apply (bool_decide_unpack _). reflexivity.
Defined.

(** ** [FullySpecifiedEnvironment] *)

(** C8: the boot's [should_include] yields exactly one empty parameter-set
    when the pipeline is an adviser pipeline and the class is not yet
    included, nothing in every other case, and never more than one. *)
Theorem fully_specified_environment_should_include (cls : unit_class)
    (builder_context : PipelineBuilderContext) :
  (run_kind builder_context = Advise /\ cls ∉ included builder_context ->
     FullySpecifiedEnvironment.should_include cls builder_context = [∅])
  /\ (~ (run_kind builder_context = Advise /\ cls ∉ included builder_context) ->
        FullySpecifiedEnvironment.should_include cls builder_context = [])
  /\ (length (FullySpecifiedEnvironment.should_include cls builder_context) <= 1)%nat.
Proof.
  unfold FullySpecifiedEnvironment.should_include, is_included, is_adviser_pipeline.
  destruct (decide (cls ∈ included builder_context)) as [Hin|Hnot].
  - rewrite (bool_decide_eq_true_2 _ Hin), andb_false_r. simpl.
    split; [|split]; [|done|lia]. by intros [_ ?].
  - rewrite (bool_decide_eq_false_2 _ Hnot), andb_true_r.
    destruct (run_kind builder_context); simpl; (split; [|split]);
      try done; try lia; try (by intros [? _]).
    intros Hno. by destruct Hno.
Qed.

Lemma fully_specified_environment_should_include_witness :
  FullySpecifiedEnvironment.should_include "FullySpecifiedEnvironment"
    (mkBuilderContext Advise ["SortJustificationsWrap"]) = [∅]
  /\ FullySpecifiedEnvironment.should_include "FullySpecifiedEnvironment"
       (mkBuilderContext DependencyMonkey []) = [].
Proof.
  split.
  - apply (proj1 (fully_specified_environment_should_include
                      "FullySpecifiedEnvironment"
                      (mkBuilderContext Advise ["SortJustificationsWrap"]))).
    split; [reflexivity|]. simpl. apply (bool_decide_unpack _). reflexivity.
  - apply (proj1 (proj2 (fully_specified_environment_should_include
                             "FullySpecifiedEnvironment"
                             (mkBuilderContext DependencyMonkey [])))).
    simpl. by intros [? _].
Defined.

(** C2: [run] raises [NotAcceptable] exactly when the runtime environment
    is not fully specified.  In that case the context it leaves behind has
    one more [stack_info] entry, at the end, of type [ERROR], carrying the
    message of the exception and the justification link, and nothing else of
    the context has changed; otherwise [run] returns and the context is the
    one it was given. *)
Theorem fully_specified_environment_run
    (is_fully_specified : RuntimeEnvironment -> bool)
    (jl repr_str : string -> string) (context : Context) :
  let after := FullySpecifiedEnvironment.run is_fully_specified jl repr_str context in
  ((exists msg, after.2 = Raised (NotAcceptable msg))
     <-> is_fully_specified (runtime_environment context) = false)
  /\ (is_fully_specified (runtime_environment context) = false ->
        exists msg,
          after.2 = Raised (NotAcceptable msg)
          /\ msg = FullySpecifiedEnvironment.not_fully_specified_msg repr_str
                     (runtime_environment context)
          /\ stack_info after.1
             = (stack_info context
                  ++ [mkEntry None "ERROR" msg (Some (jl "fully_specified_env"))])%list
          /\ runtime_environment after.1 = runtime_environment context)
  /\ (is_fully_specified (runtime_environment context) = true ->
        after = (context, Returned)).
Proof.
  unfold FullySpecifiedEnvironment.run.
  destruct (is_fully_specified (runtime_environment context)); simpl.
  - repeat split; try done. by intros [? ?].
  - repeat split; try done; eauto.
Qed.

Lemma fully_specified_environment_run_witness :
  length
    (stack_info
       (FullySpecifiedEnvironment.run Demo.is_fully_specified Demo.jl
          Demo.repr_str Demo.underspecified).1) = 1%nat.
Proof.
  destruct (fully_specified_environment_run Demo.is_fully_specified Demo.jl
              Demo.repr_str Demo.underspecified) as (_ & Hraise & _).
  destruct (Hraise eq_refl) as (msg & _ & _ & -> & _).
  reflexivity.
Defined.

(** ** [provenance] and [advise] *)

Import Cli.

(** What the commands make of an exception [exc] that leaves the [try]
    statement: an [InternalError] leaves the command as it is, before
    anything is printed; any other [ThothAdviserException] ends in a printed
    result with [error] set and a report of one entry, of type [ERROR], whose
    justification is the message followed by the class name in brackets, and
    in exit code 1. *)
Definition internal_error_propagates (w : World) (exc : exception)
    (out : outcome) (output : string) (pretty : bool) : Prop :=
  (isinstance (classes w) exc "InternalError" = true -> out = ([], Propagated exc))
  /\ (isinstance (classes w) exc "ThothAdviserException" = true ->
      isinstance (classes w) exc "InternalError" = false ->
      exists result entry,
        out = ([EvPrinted (VDict result) output pretty], Return 1)
        /\ dict_get "error" result = Some (VBool true)
        /\ dict_get "report" result = Some (VList [VDict entry])
        /\ length entry = 2%nat
        /\ dict_get "type" entry = Some (VStr "ERROR")
        /\ dict_get "justification" entry
           = Some (VStr (exc_msg exc +:+ " (" +:+ exc_class exc +:+ ")"))).

(** C5: in [provenance] and in [advise], an [InternalError] raised in the
    workflow propagates to the caller, and every other
    [ThothAdviserException] is turned into [result.error = true] with a
    single [ERROR] report entry carrying the message and the class name. *)
Theorem workflow_exceptions (w : World) (exc : exception) :
  (forall a : ProvenanceArgs,
     (provenance_try w a (provenance_result a)).2 = Err exc ->
     internal_error_propagates w exc (provenance w a)
       (pa_output a) (negb (pa_no_pretty a)))
  /\ (forall a : AdviseArgs,
        (advise_try w a (advise_result a)).2 = Err exc ->
        internal_error_propagates w exc (advise w a)
          (aa_output a) (negb (aa_no_pretty a))).
Proof.
  split; intros a Htry; unfold internal_error_propagates.
  - unfold provenance.
    destruct (provenance_try w a (provenance_result a)) as [result body] eqn:E.
    simpl in Htry. subst body. split.
    + intros Hint. rewrite Hint. by destruct (isinstance _ exc "ThothAdviserException").
    + intros Hthoth Hint. rewrite Hthoth, Hint.
      unfold provenance_try in E.
      destruct (_instantiate_project w _ _ _); inversion E; subst result;
        eexists _, _; (split; [reflexivity|]); by repeat split.
  - unfold advise.
    destruct (advise_try w a (advise_result a)) as [result body] eqn:E.
    simpl in Htry. subst body. split.
    + intros Hint. rewrite Hint. by destruct (isinstance _ exc "ThothAdviserException").
    + intros Hthoth Hint. rewrite Hthoth, Hint.
      unfold advise_try in E.
      destruct (_instantiate_project w _ _ _); inversion E; subst result;
        eexists _, _; (split; [reflexivity|]); by repeat split.
Qed.

Lemma workflow_exceptions_witness :
  provenance
    (Demo.world WStop (Err (Exception "InternalError" "broken invariant")))
    Demo.provenance_args
  = ([], Propagated (Exception "InternalError" "broken invariant"))
  /\ exists result,
       advise
         (Demo.world WStop (Err (Exception "UnsupportedConfiguration" "no such os")))
         Demo.advise_args
       = ([EvPrinted (VDict result) "-" true], Return 1)
       /\ dict_get "error" result = Some (VBool true).
Proof.
  split.
  - apply (proj1 (workflow_exceptions
                    (Demo.world WStop (Err (Exception "InternalError" "broken invariant")))
                    (Exception "InternalError" "broken invariant")));
      reflexivity.
  - destruct (proj2 (workflow_exceptions
                       (Demo.world WStop
                          (Err (Exception "UnsupportedConfiguration" "no such os")))
                       (Exception "UnsupportedConfiguration" "no such os"))
                Demo.advise_args eq_refl) as [_ Hcaught].
    destruct (Hcaught eq_refl eq_refl) as (result & entry & Hout & Herr & _).
    exists result. by split.
Defined.

(** ** Dictionaries *)

Lemma dict_get_set_eq (k : string) (v : value) (d : list (string * value)) :
  dict_get k (dict_set k v d) = Some v.
Proof.
  induction d as [|[k' v'] d IH]; simpl.
  - by rewrite String.eqb_refl.
  - destruct (String.eqb k' k) eqn:E; simpl; [by rewrite String.eqb_refl|].
    by rewrite E.
Qed.

Lemma dict_get_set_ne (k k' : string) (v : value) (d : list (string * value)) :
  k <> k' -> dict_get k (dict_set k' v d) = dict_get k d.
Proof.
  intros Hne. induction d as [|[k0 v0] d IH]; simpl.
  - by apply String.eqb_neq in Hne; rewrite String.eqb_sym, Hne.
  - destruct (String.eqb k0 k') eqn:E; simpl.
    + apply String.eqb_eq in E as ->.
      by apply String.eqb_neq in Hne; rewrite String.eqb_sym, Hne.
    + by rewrite IH.
Qed.

Lemma dict_get_append_ne (k k' : string) (x : value) (d : list (string * value)) :
  k <> k' -> dict_get k (dict_append k' x d) = dict_get k d.
Proof.
  intros Hne. unfold dict_append.
  destruct (dict_item k' d); try done. by apply dict_get_set_ne.
Qed.

Lemma dict_get_set_in_ne (k k' k'' : string) (x : value) (d : list (string * value)) :
  k <> k' -> dict_get k (dict_set_in k' k'' x d) = dict_get k d.
Proof.
  intros Hne. unfold dict_set_in.
  destruct (dict_item k' d); try done. by apply dict_get_set_ne.
Qed.

(** ** Counting events *)

Lemma count_events_app (p : event -> bool) (l l' : list event) :
  count_events p (l ++ l') = count_events p l + count_events p l'.
Proof. unfold count_events. rewrite filter_app, length_app. lia. Qed.

Lemma count_events_cons (p : event -> bool) (e : event) (l : list event) :
  count_events p (e :: l) = (if p e then 1 else 0) + count_events p l.
Proof.
  unfold count_events. rewrite filter_cons.
  destruct (decide (p e = true)) as [->|Hne]; simpl; [lia|].
  by destruct (p e).
Qed.

Lemma count_events_nil (p : event -> bool) : count_events p [] = 0.
Proof. done. Qed.

Lemma count_events_none (p : event -> bool) (l : list event) :
  Forall (fun e => p e = false) l -> count_events p l = 0.
Proof.
  induction 1 as [|e l He _ IH]; [done|].
  by rewrite count_events_cons, He, IH.
Qed.

Lemma count_events_nonneg (p : event -> bool) (l : list event) :
  0 <= count_events p l.
Proof. unfold count_events. lia. Qed.

(** ** The loop of [dependency_monkey] *)

(** Effects of a sink: none of them advances the generator, calls
    [output_function] or prints the result. *)
Definition sink_effect (e : event) : Prop :=
  is_pulled e = false /\ is_output_call e = false /\ is_printed e = false.

Section WalkLoop.
Variable w : World.
Variable s : sink.

Lemma output_function_effects (context : value) (p : Project) (n : Z) :
  Forall sink_effect (output_function w s context p n).1.1.
Proof.
  destruct s; simpl.
  - unfold _dm_amun_inspect_wrapper. destruct context; simpl; repeat constructor.
  - repeat constructor.
  - repeat constructor.
Qed.

Lemma emit_spec (p : Project) (st st' : monkey_state) (raised : option exception) :
  emit w s p st = (st', raised) ->
  ms_computed st' = ms_computed st
  /\ (exists evs, ms_events st' = ms_events st ++ EvOutputCall p (ms_computed st) :: evs
                  /\ Forall sink_effect evs)
  /\ (forall k, k <> "parameters" -> k <> "output" ->
        dict_get k (ms_result st') = dict_get k (ms_result st)).
Proof.
  unfold emit. pose proof (output_function_effects (ms_context st) p (ms_computed st)) as Heff.
  destruct (output_function w s (ms_context st) p (ms_computed st)) as [[evs context] entry].
  simpl in Heff.
  destruct entry as [entry|exc].
  - destruct (truthy_str entry); intros [= <- <-]; simpl;
      (split; [done|]); (split; [by eauto|]); intros k Hp Ho;
      rewrite ?dict_get_append_ne by done; by rewrite dict_get_set_in_ne.
  - intros [= <- <-]; simpl.
    split; [done|]. split; [by eauto|]. intros k Hp Ho. by rewrite dict_get_set_in_ne.
Qed.

(** What one run of the loop, from [st] to [st'], can have done. *)
Record extends (st st' : monkey_state) : Prop := mkExtends {
  ext_computed : ms_computed st <= ms_computed st';
  ext_pulled :
    count_events is_pulled (ms_events st')
    = count_events is_pulled (ms_events st) + (ms_computed st' - ms_computed st);
  ext_calls :
    count_events is_output_call (ms_events st')
    <= count_events is_output_call (ms_events st) + (ms_computed st' - ms_computed st);
  ext_printed :
    count_events is_printed (ms_events st') = count_events is_printed (ms_events st);
  ext_keys :
    forall k, k <> "parameters" -> k <> "output" ->
      dict_get k (ms_result st') = dict_get k (ms_result st)
}.

Lemma extends_refl (st : monkey_state) : extends st st.
Proof. split; try done; lia. Qed.

Lemma extends_trans (st1 st2 st3 : monkey_state) :
  extends st1 st2 -> extends st2 st3 -> extends st1 st3.
Proof.
  intros [] []. split; try lia.
  intros k Hp Ho. rewrite ext_keys1 by done. by apply ext_keys0.
Qed.

(** Pulling a project counts it. *)
Lemma extends_pull (p : Project) (st : monkey_state) :
  extends st
    (mkMonkeyState (ms_events st ++ [EvPulled p]) (ms_result st) (ms_context st)
       (ms_computed st + 1)).
Proof.
  split; simpl; try done; try lia;
    rewrite count_events_app, count_events_cons, count_events_nil; simpl; lia.
Qed.

(** Pulling a project and handing it to [output_function]. *)
Lemma extends_pull_emit (p p' : Project) (st st' : monkey_state)
    (raised : option exception) :
  emit w s p'
    (mkMonkeyState (ms_events st ++ [EvPulled p]) (ms_result st) (ms_context st)
       (ms_computed st + 1)) = (st', raised) ->
  extends st st'.
Proof.
  intros (Hc & (evs & Hev & Heff) & Hk)%emit_spec. simpl in *.
  assert (Hnone : forall q, (forall e, sink_effect e -> q e = false) ->
                            count_events q evs = 0).
  { intros q Hq. apply count_events_none. eapply Forall_impl; [exact Heff|done]. }
  split; rewrite ?Hc, ?Hev; try done; try lia;
    rewrite !count_events_app, !count_events_cons, count_events_nil; simpl.
  - rewrite (Hnone is_pulled) by (by intros ? (? & ? & ?)). lia.
  - rewrite (Hnone is_output_call) by (by intros ? (? & ? & ?)). lia.
  - rewrite (Hnone is_printed) by (by intros ? (? & ? & ?)). lia.
Qed.

Lemma walk_loop_extends (dry_run : bool) (count : option Z) (generator : walk_trace)
    (st : monkey_state) :
  extends st (walk_loop w s dry_run count generator st).1.1.
Proof.
  revert st. induction generator as [|exc|p rest IH]; intros st; simpl.
  - apply extends_refl.
  - apply extends_refl.
  - destruct (_fill_package_digests w p) as [p'|exc]; simpl; [|apply extends_pull].
    destruct dry_run; simpl.
    + destruct (count_reached count (ms_computed st + 1)); simpl.
      * apply extends_pull.
      * eapply extends_trans; [apply extends_pull|apply IH].
    + destruct (emit w s p' _) as [st' raised] eqn:Hemit.
      pose proof (extends_pull_emit _ _ _ _ _ Hemit) as Hext.
      destruct raised; simpl; [done|].
      destruct (count_reached count (ms_computed st')); simpl; [done|].
      eapply extends_trans; [exact Hext|apply IH].
Qed.

(** With a cap, [computed] never passes it. *)
Lemma walk_loop_capped (dry_run : bool) (n : Z) (generator : walk_trace)
    (st : monkey_state) :
  ms_computed st < n ->
  ms_computed (walk_loop w s dry_run (Some n) generator st).1.1 <= n.
Proof.
  revert st. induction generator as [|exc|p rest IH]; intros st Hlt; simpl; try lia.
  destruct (_fill_package_digests w p) as [p'|exc]; simpl; [|lia].
  destruct dry_run; simpl.
  - destruct (n <=? ms_computed st + 1) eqn:Hc; simpl; [lia|].
    apply IH. simpl. lia.
  - destruct (emit w s p' _) as [st' raised] eqn:Hemit.
    apply emit_spec in Hemit as (Hc & _). simpl in Hc.
    destruct raised; simpl; [lia|].
    destruct (n <=? ms_computed st') eqn:Hr; simpl; [lia|].
    apply IH. lia.
Qed.

(** In a dry run the loop only advances the generator. *)
Lemma walk_loop_dry_run (count : option Z) (generator : walk_trace)
    (st : monkey_state) :
  let st' := (walk_loop w s true count generator st).1.1 in
  ms_result st' = ms_result st
  /\ ms_context st' = ms_context st
  /\ exists ps, ms_events st' = ms_events st ++ (EvPulled <$> ps).
Proof.
  revert st. induction generator as [|exc|p rest IH]; intros st; simpl.
  - repeat split. exists []. simpl. by rewrite app_nil_r.
  - repeat split. exists []. simpl. by rewrite app_nil_r.
  - destruct (_fill_package_digests w p) as [p'|exc]; simpl.
    + destruct (count_reached count (ms_computed st + 1)); simpl.
      * repeat split. by exists [p].
      * destruct (IH (mkMonkeyState (ms_events st ++ [EvPulled p]) (ms_result st)
                        (ms_context st) (ms_computed st + 1)))
          as (Hr & Hc & ps & Hev). simpl in *.
        repeat split; try done. exists (p :: ps). by rewrite Hev, <- app_assoc.
    + repeat split. by exists [p].
Qed.

(** Every yielded project carries a lock, so filling in digests succeeds. *)
Definition locked (p : Project) : Prop := is_Some (pipfile_lock p).

(** In a dry run over a walk that yields [ps] and stops, [computed] ends as
    the number of projects, or as the cap if that is smaller. *)
Lemma walk_loop_dry_run_computed (count : option Z) (ps : list Project)
    (st : monkey_state) :
  Forall locked ps ->
  (forall n, count = Some n -> ms_computed st < n) ->
  (walk_loop w s true count (yields ps WStop) st).1.2 = None
  /\ ms_computed (walk_loop w s true count (yields ps WStop) st).1.1
     = ms_computed st
       + match count with
         | Some n => Z.min (Z.of_nat (length ps)) (n - ms_computed st)
         | None => Z.of_nat (length ps)
         end.
Proof.
  intros Hlocked. revert st.
  induction Hlocked as [|p ps [lock Hlock] _ IH]; intros st Hcount.
  - simpl. split; [done|]. destruct count as [n|]; [|lia].
    specialize (Hcount n eq_refl). lia.
  - assert (exists p', _fill_package_digests w p = Ok p') as [p' Hfill].
    { unfold _fill_package_digests. rewrite Hlock. eauto. }
    change (yields (p :: ps) WStop) with (WYield p (yields ps WStop)).
    cbn [walk_loop]. rewrite Hfill. cbn [negb].
    set (st1 := mkMonkeyState _ _ _ _).
    destruct (count_reached count (ms_computed st1)) eqn:Hreached.
    + split; [done|]. subst st1. cbn -[Z.of_nat] in *.
      destruct count as [n|]; [|done].
      specialize (Hcount n eq_refl). simpl in Hreached. lia.
    + destruct (IH st1) as [Hnone Hcomputed].
      { intros n ->. specialize (Hcount n eq_refl). subst st1. simpl in *. lia. }
      split; [done|]. rewrite Hcomputed. subst st1. cbn -[Z.of_nat Z.min] in *.
      destruct count as [n|]; [|lia].
      specialize (Hcount n eq_refl). simpl in Hreached. lia.
Qed.

(** Once the cap is reached the rest of the walk is not run: what the loop
    does is the same whatever would come after the first [n] projects. *)
Lemma walk_loop_stops (dry_run : bool) (n : Z) (ps : list Project)
    (tail tail' : walk_trace) (st : monkey_state) :
  ms_computed st < n ->
  n - ms_computed st <= Z.of_nat (length ps) ->
  (walk_loop w s dry_run (Some n) (yields ps tail) st).1
  = (walk_loop w s dry_run (Some n) (yields ps tail') st).1.
Proof.
  revert st. induction ps as [|p ps IH]; intros st Hlt Hlen; simpl in *; [lia|].
  destruct (_fill_package_digests w p) as [p'|exc]; simpl; [|done].
  destruct dry_run; simpl.
  - destruct (n <=? ms_computed st + 1) eqn:Hc; simpl; [done|].
    apply IH; simpl; lia.
  - destruct (emit w s p' _) as [st' raised] eqn:Hemit.
    pose proof Hemit as (Hcomputed & _)%emit_spec. simpl in Hcomputed.
    destruct raised; simpl; [done|].
    destruct (n <=? ms_computed st') eqn:Hc; simpl; [done|].
    apply IH; lia.
Qed.

(** A walk that fails after yielding [ps] leaves the loop in the state the
    loop reaches on [ps] alone, provided these are processed without an
    exception and without reaching the cap. *)
Lemma walk_loop_raise (dry_run : bool) (count : option Z) (ps : list Project)
    (exc : exception) (st st1 : monkey_state) :
  walk_loop w s dry_run count (yields ps WStop) st = (st1, None, WStop) ->
  count_reached count (ms_computed st1) = false ->
  walk_loop w s dry_run count (yields ps (WRaise exc)) st = (st1, Some exc, WStop).
Proof.
  revert st. induction ps as [|p ps IH]; intros st Hloop Hcap; simpl in *.
  - by inversion Hloop.
  - destruct (_fill_package_digests w p) as [p'|exc']; [|done].
    destruct (if negb dry_run then _ else _) as [st' raised].
    destruct raised; [done|].
    destruct (count_reached count (ms_computed st')) eqn:Hc.
    + inversion Hloop; subst. congruence.
    + by apply IH.
Qed.

End WalkLoop.

(** ** [dependency_monkey] *)

Section Monkey.
Variable w : World.
Variable a : MonkeyArgs.

Lemma select_output_effects (evs : list event) (context : value) (s : sink) :
  select_output w (stack_output a) (Cli.context a) = inr (evs, context, s) ->
  Forall sink_effect evs.
Proof.
  unfold select_output.
  destruct (_ || _).
  - destruct (truthy_str _); [destruct (json_loads w _)|]; intros [= <- <- <-];
      constructor.
  - destruct (String.eqb _ _); [intros [= <- <- <-]; constructor|].
    destruct (truthy_str _); [done|]. intros [= <- <- <-].
    destruct (isdir w _); repeat constructor.
Qed.

(** When the preparation does not return early, the cap, if any, is
    positive, and nothing but a directory has been created. *)
Lemma monkey_prepare_setup (su : monkey_setup) :
  monkey_prepare w a = inr su ->
  (forall n, su_count su = Some n -> 0 < n) /\ Forall sink_effect (su_events su).
Proof.
  unfold monkey_prepare.
  destruct (_instantiate_project w _ _ _) as [project|]; [|done].
  destruct (optional_int w (seed a)) as [sd|]; [|done].
  destruct (optional_int w (count a)) as [cnt|]; [|done].
  destruct (match cnt with Some c => c <=? 0 | None => false end) eqn:Hcnt; [done|].
  destruct (select_output w _ _) as [code|[[evs context] s]] eqn:Hsel; [done|].
  intros [= <-]. simpl. split.
  - intros n ->. lia.
  - by eapply select_output_effects.
Qed.

(** An early return has had no effect, and its exit code is 1, 2 or 3. *)
Lemma monkey_prepare_early (evs : list event) (ex : exit) :
  monkey_prepare w a = inl (evs, ex) ->
  evs = [] /\ (forall code, ex = Return code -> code = 1 \/ code = 2 \/ code = 3).
Proof.
  unfold monkey_prepare.
  destruct (_instantiate_project w _ _ _) as [project|]; [|by intros [= <- <-]].
  destruct (optional_int w (seed a)) as [sd|]; [|by intros [= <- <-]].
  destruct (optional_int w (count a)) as [cnt|]; [|by intros [= <- <-]].
  destruct (match cnt with Some c => c <=? 0 | None => false end).
  { intros [= <- <-]. split; [done|]. intros ? [= <-]. auto. }
  destruct (select_output w _ _) as [code|[[evs' context] s]] eqn:Hsel; [|done].
  intros [= <- <-]. split; [done|]. intros ? [= <-].
  unfold select_output in Hsel.
  destruct (_ || _).
  - destruct (truthy_str _); [destruct (json_loads w _)|]; naive_solver.
  - destruct (String.eqb _ _); [done|]. destruct (truthy_str _); naive_solver.
Qed.

(** The end of a run that prints [result]. *)
Definition printed_outcome (st : monkey_state) (result : list (string * value))
  : outcome :=
  (ms_events st ++ [EvPrinted (VDict result) (report_output a) (negb (no_pretty a))],
   Return (int_is_True (dict_item "error" result))).

(** The three ways [monkey_main] ends, in terms of the state [st] in which
    the loop was left. *)
Lemma monkey_main_shape (su : monkey_setup) :
  (forall n, su_count su = Some n -> 0 < n) ->
  exists st,
    extends (monkey_start w a su) st
    /\ (forall n, su_count su = Some n -> ms_computed st <= n)
    /\ (dry_run a = true ->
          ms_result st = monkey_result w a su
          /\ exists ps, ms_events st = su_events su ++ (EvPulled <$> ps))
    /\ ((exists exc, monkey_main w a su = (ms_events st, Propagated exc))
        \/ monkey_main w a su
           = printed_outcome st (dict_set "error" (VBool true) (ms_result st))
        \/ monkey_main w a su
           = printed_outcome st
               (dict_set "computed" (VInt (ms_computed st)) (ms_result st))).
Proof.
  intros Hcount. unfold monkey_main, monkey_try.
  destruct (from_project w (su_project su)) as [g|exc].
  - set (generator := walk w g (decision a) (su_seed su)).
    pose proof (walk_loop_extends w (su_output_function su) (dry_run a) (su_count su)
                  generator (monkey_start w a su)) as Hext.
    assert (Hcap : forall n, su_count su = Some n ->
              ms_computed (walk_loop w (su_output_function su) (dry_run a) (su_count su)
                             generator (monkey_start w a su)).1.1 <= n).
    { intros n Hn. rewrite Hn. apply walk_loop_capped. simpl. by apply Hcount. }
    assert (Hdry : dry_run a = true ->
              let st := (walk_loop w (su_output_function su) (dry_run a) (su_count su)
                           generator (monkey_start w a su)).1.1 in
              ms_result st = monkey_result w a su
              /\ exists ps, ms_events st = su_events su ++ (EvPulled <$> ps)).
    { intros ->. destruct (walk_loop_dry_run w (su_output_function su) (su_count su)
                             generator (monkey_start w a su)) as (? & _ & ?). done. }
    destruct (walk_loop w _ _ _ generator _) as [[st raised] rest]. simpl in *.
    exists st. repeat (split; [done|]).
    destruct raised as [exc|]; [|by auto].
    destruct (isinstance (classes w) exc "SolverException"); [by auto|by eauto].
  - exists (monkey_start w a su). split; [apply extends_refl|].
    split; [intros n Hn; specialize (Hcount n Hn); simpl; lia|].
    split; [intros _; split; [done|]; exists []; simpl; by rewrite app_nil_r|].
    destruct (isinstance (classes w) exc "SolverException"); [by auto|by eauto].
Qed.

End Monkey.

(** The keys of [result] the loop never assigns keep their initial values in
    the state [st] in which the loop is left. *)
Lemma monkey_result_kept (w : World) (a : MonkeyArgs) (su : monkey_setup)
    (st : monkey_state) :
  extends (monkey_start w a su) st ->
  dict_get "error" (ms_result st) = Some (VBool false)
  /\ dict_get "report" (ms_result st) = Some (VList [])
  /\ dict_get "computed" (ms_result st) = Some VNone.
Proof. intros [_ _ _ _ Hkeys]. by rewrite !Hkeys. Qed.

Lemma monkey_nothing_printed (w : World) (a : MonkeyArgs) (su : monkey_setup)
    (st : monkey_state) :
  Forall sink_effect (su_events su) ->
  extends (monkey_start w a su) st ->
  count_events is_printed (ms_events st) = 0
  /\ count_events is_pulled (ms_events st) = ms_computed st
  /\ count_events is_output_call (ms_events st) <= ms_computed st.
Proof.
  intros Heff [Hc Hpulled Hcalls Hprinted _]. simpl in *.
  assert (Hnone : forall q, (forall e, sink_effect e -> q e = false) ->
                            count_events q (su_events su) = 0).
  { intros q Hq. apply count_events_none. eapply Forall_impl; [exact Heff|done]. }
  rewrite Hprinted, Hpulled.
  rewrite (Hnone is_printed) by (by intros ? (? & ? & ?)).
  rewrite (Hnone is_pulled) by (by intros ? (? & ? & ?)).
  rewrite (Hnone is_output_call) in Hcalls by (by intros ? (? & ? & ?)).
  lia.
Qed.

(** C4, amended: lines 332-337 run before every check: when the project
    cannot be instantiated, or [int] rejects the seed or the count, that
    exception propagates and the command returns no exit code.  With a
    project that can be instantiated and a seed and a count that are empty or
    accepted by [int], the command returns 3 when the count is not positive;
    when the count is absent or positive and a non-empty context is given, it
    returns 1 if the stack output is an http(s) endpoint and [json.loads]
    rejects the context, and 2 if the stack output is a directory (neither an
    http(s) endpoint nor ["-"]).  These returns happen before any effect: no
    stack is generated, no result dictionary is printed.  Every other return
    prints the result last and once, and its exit code is 1 when
    [result['error']] is [True] and 0 when it is [False]. *)
Theorem dependency_monkey_exit_codes (w : World) (a : MonkeyArgs) :
  (forall exc,
     (_instantiate_project w (requirements a) None (files a) = Err exc ->
      dependency_monkey w a = ([], Propagated exc))
     /\ (forall project,
           _instantiate_project w (requirements a) None (files a) = Ok project ->
           optional_int w (seed a) = Err exc ->
           dependency_monkey w a = ([], Propagated exc))
     /\ (forall project sd,
           _instantiate_project w (requirements a) None (files a) = Ok project ->
           optional_int w (seed a) = Ok sd ->
           optional_int w (count a) = Err exc ->
           dependency_monkey w a = ([], Propagated exc)))
  /\ (forall project sd cnt,
     _instantiate_project w (requirements a) None (files a) = Ok project ->
     optional_int w (seed a) = Ok sd ->
     optional_int w (count a) = Ok cnt ->
     (forall n, cnt = Some n -> n <= 0 -> dependency_monkey w a = ([], Return 3))
     /\ ((forall n, cnt = Some n -> 0 < n) ->
         truthy_str (context a) = true ->
         (String.prefix "https://" (stack_output a)
          || String.prefix "http://" (stack_output a) = true ->
          (exists exc, json_loads w (default "" (context a)) = Err exc) ->
          dependency_monkey w a = ([], Return 1))
         /\ (String.prefix "https://" (stack_output a)
             || String.prefix "http://" (stack_output a) = false ->
             stack_output a <> "-" ->
             dependency_monkey w a = ([], Return 2))))
  /\ (forall evs code,
        dependency_monkey w a = (evs, Return code) ->
        (evs = [] /\ (code = 1 \/ code = 2 \/ code = 3))
        \/ exists evs' result,
             evs = evs' ++ [EvPrinted (VDict result) (report_output a)
                              (negb (no_pretty a))]
             /\ count_events is_printed evs' = 0
             /\ ((code = 1 /\ dict_get "error" result = Some (VBool true))
                 \/ (code = 0 /\ dict_get "error" result = Some (VBool false)))).
Proof.
  split; [|split].
  - intros exc. unfold dependency_monkey, monkey_prepare. split; [|split].
    + by intros ->.
    + by intros project -> ->.
    + by intros project sd -> -> ->.
  - intros project sd cnt Hproject Hseed Hcount.
    unfold dependency_monkey, monkey_prepare. rewrite Hproject, Hseed, Hcount. split.
    + intros n -> Hn. by rewrite (proj2 (Z.leb_le n 0) Hn).
    + intros Hpos Hcontext.
      assert (match cnt with Some c => c <=? 0 | None => false end = false) as ->.
      { destruct cnt as [n|]; [|done]. specialize (Hpos n eq_refl). lia. }
      unfold select_output. split.
      * intros -> [exc Hjson]. by rewrite Hcontext, Hjson.
      * intros -> Hstdout. apply String.eqb_neq in Hstdout. by rewrite Hstdout, Hcontext.
  - intros evs code. unfold dependency_monkey.
    destruct (monkey_prepare w a) as [[evs0 ex]|su] eqn:Hprepare.
    + apply monkey_prepare_early in Hprepare as [-> Hcode].
      intros [= <- ->]. left. auto.
    + apply monkey_prepare_setup in Hprepare as [Hpos Heff].
      destruct (monkey_main_shape w a su Hpos) as (st & Hext & _ & _ & Hend).
      destruct (monkey_result_kept w a su st Hext) as (Herror & _ & _).
      destruct (monkey_nothing_printed w a su st Heff Hext) as (Hprinted & _ & _).
      destruct Hend as [[exc ->]|[-> | ->]]; [done| |];
        unfold printed_outcome; intros [= <- <-]; right; eexists _, _;
        (split; [reflexivity|]); (split; [done|]).
      * left. unfold dict_item. by rewrite dict_get_set_eq.
      * right. unfold dict_item. by rewrite dict_get_set_ne, Herror.
Qed.

(** With a count of 0 the command returns 3, with a context [json.loads]
    rejects and an Amun endpoint 1, with a context and a directory 2; with a
    count of 0 and a requirements file that cannot be read, or a seed that is
    no number, it returns nothing: the exception of line 332 or 336
    propagates. *)
Lemma dependency_monkey_exit_codes_witness :
  dependency_monkey (Demo.world Demo.two_stacks (Ok VNone))
    (Demo.monkey_args "-" None (Some "0") false) = ([], Return 3)
  /\ dependency_monkey (Demo.world Demo.two_stacks (Ok VNone))
       (Demo.monkey_args "https://amun" (Some "{") (Some "2") false) = ([], Return 1)
  /\ dependency_monkey (Demo.world Demo.two_stacks (Ok VNone))
       (Demo.monkey_args "/tmp/stacks" (Some "{}") None false) = ([], Return 2)
  /\ dependency_monkey (Demo.world Demo.two_stacks (Ok VNone))
       (mkMonkeyArgs "Pipfile" "-" "-" true None "all" false None false (Some "0"))
     = ([], Propagated (Exception "FileNotFoundError" "No such file"))
  /\ dependency_monkey (Demo.world Demo.two_stacks (Ok VNone))
       (mkMonkeyArgs "a>=1,<3" "-" "-" false (Some "abc") "all" false None false
          (Some "0"))
     = ([], Propagated
              (Exception "ValueError" "invalid literal for int() with base 10")).
Proof.
  split; [|split; [|split; [|split]]].
  - refine (proj1 (proj1 (proj2 (dependency_monkey_exit_codes
                                   (Demo.world Demo.two_stacks (Ok VNone))
                                   (Demo.monkey_args "-" None (Some "0") false)))
                     Demo.the_pipfile_project None (Some 0) eq_refl eq_refl eq_refl)
              0 eq_refl _).
    lia.
  - refine (proj1 (proj2 (proj1 (proj2 (dependency_monkey_exit_codes
                                   (Demo.world Demo.two_stacks (Ok VNone))
                                   (Demo.monkey_args "https://amun" (Some "{")
                                      (Some "2") false)))
                            Demo.the_pipfile_project None (Some 2) eq_refl eq_refl
                            eq_refl) _ eq_refl) eq_refl _).
    + intros n [= <-]. lia.
    + eexists. reflexivity.
  - refine (proj2 (proj2 (proj1 (proj2 (dependency_monkey_exit_codes
                                   (Demo.world Demo.two_stacks (Ok VNone))
                                   (Demo.monkey_args "/tmp/stacks" (Some "{}") None
                                      false)))
                            Demo.the_pipfile_project None None eq_refl eq_refl
                            eq_refl) _ eq_refl) eq_refl _).
    + intros n [=].
    + intros [=].
  - exact (proj1 (proj1 (dependency_monkey_exit_codes
                           (Demo.world Demo.two_stacks (Ok VNone))
                           (mkMonkeyArgs "Pipfile" "-" "-" true None "all" false None
                              false (Some "0")))
                    (Exception "FileNotFoundError" "No such file")) eq_refl).
  - exact (proj1 (proj2 (proj1 (dependency_monkey_exit_codes
                                  (Demo.world Demo.two_stacks (Ok VNone))
                                  (mkMonkeyArgs "a>=1,<3" "-" "-" false (Some "abc")
                                     "all" false None false (Some "0")))
                           (Exception "ValueError"
                              "invalid literal for int() with base 10")))
             Demo.the_pipfile_project eq_refl eq_refl).
Defined.

(** C4 as it is stated fails: with a count of 0, an http endpoint and a
    context that is not valid JSON, the exit code is 3 and not 1, and this
    nonzero return comes with no result at all: nothing was printed, so no
    [result.error] is [True]. *)
Lemma dependency_monkey_exit_codes_counterexample :
  let w := Demo.world Demo.two_stacks (Ok VNone) in
  let a := Demo.monkey_args "http://amun" (Some "{") (Some "0") false in
  (String.prefix "https://" (stack_output a)
   || String.prefix "http://" (stack_output a) = true)
  /\ json_loads w (default "" (context a))
     = Err (Exception "JSONDecodeError" "Expecting value")
  /\ dependency_monkey w a = ([], Return 3)
  /\ dependency_monkey w a <> ([], Return 1)
  /\ printed_results (dependency_monkey w a) = [].
Proof.
  cbv zeta. split; [reflexivity|]. split; [reflexivity|].
  split; [reflexivity|]. split; [|reflexivity]. vm_compute. discriminate.
Qed.

(** C3, amended: when the walk raises a [SolverException] after yielding
    [ps], before the cap is reached, the exception is caught; the result is
    printed with [error] set to [True], an empty [report] and [computed]
    still [None], and the exit code is 1.  Neither the class name of the
    exception nor its message reach the result.  The [output] entries and the
    effects are those of the stacks [ps] processed before the failure. *)
Theorem dependency_monkey_solver_exception (w : World) (a : MonkeyArgs)
    (su : monkey_setup) (g : DependencyGraph w) (ps : list Project)
    (exc : exception) (st1 : monkey_state) :
  monkey_prepare w a = inr su ->
  from_project w (su_project su) = Ok g ->
  walk w g (decision a) (su_seed su) = yields ps (WRaise exc) ->
  walk_loop w (su_output_function su) (dry_run a) (su_count su) (yields ps WStop)
    (monkey_start w a su) = (st1, None, WStop) ->
  count_reached (su_count su) (ms_computed st1) = false ->
  isinstance (classes w) exc "SolverException" = true ->
  exists result,
    dependency_monkey w a
    = (ms_events st1
         ++ [EvPrinted (VDict result) (report_output a) (negb (no_pretty a))],
       Return 1)
    /\ dict_get "error" result = Some (VBool true)
    /\ dict_get "report" result = Some (VList [])
    /\ dict_get "computed" result = Some VNone
    /\ dict_get "output" result = dict_get "output" (ms_result st1).
Proof.
  intros Hprepare Hgraph Hwalk Hloop Hcap Hsolver.
  pose proof (walk_loop_extends w (su_output_function su) (dry_run a) (su_count su)
                (yields ps WStop) (monkey_start w a su)) as Hext.
  rewrite Hloop in Hext. simpl in Hext.
  destruct (monkey_result_kept w a su st1 Hext) as (Herror & Hreport & Hcomputed).
  exists (dict_set "error" (VBool true) (ms_result st1)).
  split; [|split; [|split; [|split]]].
  - unfold dependency_monkey. rewrite Hprepare.
    unfold monkey_main, monkey_try. rewrite Hgraph, Hwalk.
    rewrite (walk_loop_raise _ _ _ _ _ _ _ _ Hloop Hcap). rewrite Hsolver.
    unfold dict_item. by rewrite dict_get_set_eq.
  - apply dict_get_set_eq.
  - by rewrite dict_get_set_ne.
  - by rewrite dict_get_set_ne.
  - by rewrite dict_get_set_ne.
Qed.

Lemma dependency_monkey_solver_exception_witness :
  exists evs result,
    dependency_monkey (Demo.world Demo.failing_walk (Ok VNone))
      (Demo.monkey_args "http://amun" None None false)
    = (evs ++ [EvPrinted (VDict result) "-" true], Return 1)
    /\ dict_get "error" result = Some (VBool true)
    /\ dict_get "report" result = Some (VList [])
    /\ dict_get "output" result = Some (VList [VStr "inspection-a"]).
Proof.
  edestruct (fun su st1 =>
               dependency_monkey_solver_exception
                 (Demo.world Demo.failing_walk (Ok VNone))
                 (Demo.monkey_args "http://amun" None None false)
                 su Demo.the_pipfile_project [Demo.stack "1"] Demo.no_releases st1)
    as (result & Hout & Herror & Hreport & _ & Houtput).
  - reflexivity.
  - reflexivity.
  - reflexivity.
  - reflexivity.
  - reflexivity.
  - reflexivity.
  - eexists _, result. split; [exact Hout|]. split; [exact Herror|].
    split; [exact Hreport|]. rewrite Houtput. reflexivity.
Defined.

(** C3 as it is stated fails: the walk yields one stack and then raises
    [NoReleasesFound], a [SolverException]; the one result that is printed
    has [error] set but an empty report, so the class name and the message of
    the exception are not reported. *)
Lemma dependency_monkey_solver_exception_counterexample :
  let w := Demo.world Demo.failing_walk (Ok VNone) in
  let a := Demo.monkey_args "http://amun" None None false in
  walk w Demo.the_pipfile_project (decision a) None
  = WYield (Demo.stack "1") (WRaise Demo.no_releases)
  /\ isinstance (classes w) Demo.no_releases "SolverException" = true
  /\ (exists result,
        printed_results (dependency_monkey w a) = [VDict result]
        /\ dict_get "error" result = Some (VBool true)
        /\ dict_get "report" result = Some (VList []))
  /\ (dependency_monkey w a).2 = Return 1.
Proof.
  cbv zeta. split; [reflexivity|]. split; [reflexivity|]. split; [|reflexivity].
  eexists. split; [reflexivity|]. split; reflexivity.
Qed.

(** ** The cap and the dry run *)

Lemma printed_results_none (evs : list event) (ex : exit) :
  count_events is_printed evs = 0 -> printed_results (evs, ex) = [].
Proof.
  unfold printed_results. simpl. induction evs as [|e evs IH]; [done|].
  rewrite count_events_cons. pose proof (count_events_nonneg is_printed evs).
  destruct e; simpl; intros; try (apply IH; lia); lia.
Qed.

Lemma printed_results_last (evs : list event) (result : value) (output : string)
    (pretty : bool) (ex : exit) :
  count_events is_printed evs = 0 ->
  printed_results (evs ++ [EvPrinted result output pretty], ex) = [result].
Proof.
  intros Hnone. pose proof (printed_results_none evs ex Hnone) as Hevs.
  unfold printed_results in *. simpl in *. by rewrite omap_app, Hevs.
Qed.

(** The loop does not look at how the world walks a graph. *)
Lemma walk_loop_with_walk (w : World)
    (f : DependencyGraph w -> string -> option Z -> walk_trace) (s : sink)
    (dry_run : bool) (count : option Z) (generator : walk_trace) (st : monkey_state) :
  walk_loop (with_walk w f) s dry_run count generator st
  = walk_loop w s dry_run count generator st.
Proof.
  revert st. induction generator as [|exc|p rest IH]; intros st; simpl; done.
Qed.

(** C6: with a count [n], which is at least 1 when the command gets as far
    as the loop, at most [n] combinations are pulled from the walk and at most
    [n] are handed to the output function; a printed [computed] is at most
    [n] and is the number of combinations pulled.  The walk is not run beyond
    its first [n] combinations: whatever would follow them, the command does
    the same. *)
Theorem dependency_monkey_count_cap (w : World) (a : MonkeyArgs) (su : monkey_setup)
    (n : Z) :
  monkey_prepare w a = inr su ->
  su_count su = Some n ->
  1 <= n
  /\ count_events is_pulled (dependency_monkey w a).1 <= n
  /\ count_events is_output_call (dependency_monkey w a).1 <= n
  /\ (printed_results (dependency_monkey w a) = []
      \/ exists result,
           printed_results (dependency_monkey w a) = [VDict result]
           /\ (dict_get "computed" result = Some VNone
               \/ exists c,
                    dict_get "computed" result = Some (VInt c)
                    /\ 0 <= c <= n
                    /\ c = count_events is_pulled (dependency_monkey w a).1))
  /\ (forall ps tail tail',
        Z.of_nat (length ps) = n ->
        dependency_monkey (with_walk w (fun _ _ _ => yields ps tail)) a
        = dependency_monkey (with_walk w (fun _ _ _ => yields ps tail')) a).
Proof.
  intros Hprepare Hn.
  pose proof (monkey_prepare_setup w a su Hprepare) as [Hpos Heff].
  pose proof (Hpos n Hn) as Hn1.
  assert (Hstop : forall ps tail tail',
            Z.of_nat (length ps) = n ->
            dependency_monkey (with_walk w (fun _ _ _ => yields ps tail)) a
            = dependency_monkey (with_walk w (fun _ _ _ => yields ps tail')) a).
  { intros ps tail tail' Hlen. unfold dependency_monkey.
    change (monkey_prepare (with_walk w (fun _ _ _ => yields ps tail)) a)
      with (monkey_prepare w a).
    change (monkey_prepare (with_walk w (fun _ _ _ => yields ps tail')) a)
      with (monkey_prepare w a).
    rewrite Hprepare. unfold monkey_main, monkey_try. simpl.
    destruct (from_project w (su_project su)) as [g|exc]; [|done].
    rewrite !walk_loop_with_walk.
    change (monkey_start (with_walk w (fun _ _ _ => yields ps tail)) a su)
      with (monkey_start w a su).
    change (monkey_start (with_walk w (fun _ _ _ => yields ps tail')) a su)
      with (monkey_start w a su).
    pose proof (walk_loop_stops w (su_output_function su) (dry_run a) n ps tail tail'
                  (monkey_start w a su)) as Hstop.
    simpl in Hstop. specialize (Hstop ltac:(lia) ltac:(lia)).
    rewrite Hn.
    destruct (walk_loop w _ _ _ (yields ps tail) _) as [[st raised] rest].
    destruct (walk_loop w _ _ _ (yields ps tail') _) as [[st' raised'] rest'].
    simpl in Hstop. by injection Hstop as -> ->. }
  split; [lia|]. unfold dependency_monkey at 1 2 3 4 5. rewrite Hprepare.
  destruct (monkey_main_shape w a su Hpos) as (st & Hext & Hcap & _ & Hend).
  specialize (Hcap n Hn).
  destruct (monkey_result_kept w a su st Hext) as (Herror & _ & Hcomputed).
  destruct (monkey_nothing_printed w a su st Heff Hext)
    as (Hprinted & Hpulled & Hcalls).
  pose proof (ext_computed _ _ Hext) as Hc0. simpl in Hc0.
  destruct Hend as [[exc ->]|[-> | ->]]; unfold printed_outcome; simpl.
  - split; [lia|]. split; [lia|]. split; [|done].
    left. by apply printed_results_none.
  - rewrite !count_events_app, !count_events_cons, !count_events_nil. simpl.
    split; [lia|]. split; [lia|]. split; [|done].
    right. eexists. split.
    + by apply printed_results_last.
    + left. by rewrite dict_get_set_ne.
  - rewrite !count_events_app, !count_events_cons, !count_events_nil. simpl.
    split; [lia|]. split; [lia|]. split; [|done].
    right. eexists. split.
    + by apply printed_results_last.
    + right. exists (ms_computed st). rewrite dict_get_set_eq.
      split; [done|]. split; lia.
Qed.

Lemma dependency_monkey_count_cap_witness :
  count_events is_pulled
    (dependency_monkey (Demo.world Demo.two_stacks (Ok VNone))
       (Demo.monkey_args "http://amun" None (Some "1") false)).1 <= 1
  /\ dependency_monkey
       (with_walk (Demo.world Demo.two_stacks (Ok VNone))
          (fun _ _ _ => yields [Demo.stack "1"] Demo.failing_walk))
       (Demo.monkey_args "http://amun" None (Some "1") false)
     = dependency_monkey
         (with_walk (Demo.world Demo.two_stacks (Ok VNone))
            (fun _ _ _ => yields [Demo.stack "1"] WStop))
         (Demo.monkey_args "http://amun" None (Some "1") false).
Proof.
  edestruct (fun su =>
               dependency_monkey_count_cap (Demo.world Demo.two_stacks (Ok VNone))
                 (Demo.monkey_args "http://amun" None (Some "1") false) su 1)
    as (_ & Hpulled & _ & _ & Hstop).
  - reflexivity.
  - reflexivity.
  - split; [exact Hpulled|]. by apply Hstop.
Defined.

(** C10: in a dry run the output function is never called: apart from what
    the preparation did, the run only pulls combinations from the walk and, if
    no exception escapes, prints the result, whose [output] is still the empty
    list.  When the walk yields the combinations [ps] and stops, [computed]
    is printed as their number, or as the count if that is smaller, and the
    exit code is 0. *)
Theorem dependency_monkey_dry_run (w : World) (a : MonkeyArgs) (su : monkey_setup) :
  monkey_prepare w a = inr su ->
  dry_run a = true ->
  count_events is_output_call (dependency_monkey w a).1 = 0
  /\ (exists pulled printed,
        (dependency_monkey w a).1 = su_events su ++ (EvPulled <$> pulled) ++ printed
        /\ (printed = []
            \/ exists result,
                 printed = [EvPrinted (VDict result) (report_output a)
                              (negb (no_pretty a))]
                 /\ dict_get "output" result = Some (VList [])))
  /\ (forall g ps,
        from_project w (su_project su) = Ok g ->
        walk w g (decision a) (su_seed su) = yields ps WStop ->
        Forall locked ps ->
        exists result,
          printed_results (dependency_monkey w a) = [VDict result]
          /\ dict_get "computed" result
             = Some (VInt match su_count su with
                          | Some n => Z.min (Z.of_nat (length ps)) n
                          | None => Z.of_nat (length ps)
                          end)
          /\ (dependency_monkey w a).2 = Return 0).
Proof.
  intros Hprepare Hdry.
  pose proof (monkey_prepare_setup w a su Hprepare) as [Hpos Heff].
  unfold dependency_monkey. rewrite Hprepare. split; [|split].
  - destruct (monkey_main_shape w a su Hpos) as (st & Hext & _ & Hshape & Hend).
    destruct (Hshape Hdry) as (_ & pulled & Hevents).
    assert (count_events is_output_call (ms_events st) = 0) as Hnone.
    { rewrite Hevents, count_events_app.
      rewrite (count_events_none is_output_call (su_events su))
        by (eapply Forall_impl; [exact Heff|by intros ? (? & ? & ?)]).
      rewrite (count_events_none is_output_call (EvPulled <$> pulled)); [done|].
      by apply Forall_fmap, Forall_true. }
    destruct Hend as [[exc ->]|[-> | ->]]; unfold printed_outcome; simpl; [done| |];
      by rewrite count_events_app, count_events_cons, count_events_nil, Hnone.
  - destruct (monkey_main_shape w a su Hpos) as (st & Hext & _ & Hshape & Hend).
    destruct (Hshape Hdry) as (Hresult & pulled & Hevents).
    exists pulled.
    destruct Hend as [[exc ->]|[-> | ->]]; unfold printed_outcome; simpl;
      rewrite Hevents, <- ?app_assoc.
    + exists []. rewrite app_nil_r. auto.
    + eexists. split; [reflexivity|]. right. eexists. split; [reflexivity|].
      by rewrite Hresult.
    + eexists. split; [reflexivity|]. right. eexists. split; [reflexivity|].
      by rewrite Hresult.
  - intros g ps Hgraph Hwalk Hlocked.
    unfold monkey_main, monkey_try. rewrite Hgraph, Hwalk, Hdry.
    pose proof (walk_loop_extends w (su_output_function su) true (su_count su)
                  (yields ps WStop) (monkey_start w a su)) as Hext.
    destruct (walk_loop_dry_run_computed w (su_output_function su) (su_count su) ps
                (monkey_start w a su) Hlocked) as [Hnone Hcomputed].
    { intros n Hn. simpl. by apply Hpos. }
    destruct (walk_loop w _ _ _ (yields ps WStop) _) as [[st raised] rest].
    simpl in Hext, Hnone, Hcomputed. subst raised.
    destruct (monkey_result_kept w a su st Hext) as (Herror & _ & _).
    destruct (monkey_nothing_printed w a su st Heff Hext) as (Hprinted & _ & _).
    eexists. split; [by apply printed_results_last|]. simpl. split.
    + rewrite dict_get_set_eq, Hcomputed. do 2 f_equal.
      destruct (su_count su); [f_equal; lia|lia].
    + unfold dict_item. by rewrite dict_get_set_ne, Herror.
Qed.

Lemma dependency_monkey_dry_run_witness :
  count_events is_output_call
    (dependency_monkey (Demo.world Demo.two_stacks (Ok VNone))
       (Demo.monkey_args "/tmp/stacks" None (Some "3") true)).1 = 0
  /\ exists result,
       printed_results
         (dependency_monkey (Demo.world Demo.two_stacks (Ok VNone))
            (Demo.monkey_args "/tmp/stacks" None (Some "3") true))
       = [VDict result]
       /\ dict_get "computed" result = Some (VInt 2).
Proof.
  edestruct (fun su =>
               dependency_monkey_dry_run (Demo.world Demo.two_stacks (Ok VNone))
                 (Demo.monkey_args "/tmp/stacks" None (Some "3") true) su)
    as (Hcalls & _ & Hcomputed).
  - reflexivity.
  - reflexivity.
  - split; [exact Hcalls|].
    destruct (Hcomputed Demo.the_pipfile_project [Demo.stack "1"; Demo.stack "2"]
                eq_refl eq_refl) as (result & Hprinted & Hresult & _).
    + repeat constructor; by eexists.
    + exists result. split; [exact Hprinted|exact Hresult].
Defined.

(** ** The units and the commands on concrete inputs *)

Example sort_some_state :
  justification (SortJustificationsWrap.run Demo.some_state).1
  = [Demo.entry None "ERROR" "y"; Demo.entry None "WARNING" "y";
     Demo.entry (Some "a") "INFO" "z"; Demo.entry (Some "b") "INFO" "x"].
Proof. reflexivity. Qed.

Example sort_keeps_equal_keys_in_order :
  Py.sort_by_key SortJustificationsWrap.sort_key
    [mkEntry (Some "b") "INFO" "x" (Some "l1"); mkEntry None "INFO" "x" None;
     mkEntry (Some "b") "INFO" "x" (Some "l2")]
  = [mkEntry None "INFO" "x" None; mkEntry (Some "b") "INFO" "x" (Some "l1");
     mkEntry (Some "b") "INFO" "x" (Some "l2")].
Proof. reflexivity. Qed.

Example underspecified_message :
  (FullySpecifiedEnvironment.run Demo.is_fully_specified Demo.jl Demo.repr_str
     Demo.underspecified).2
  = Raised
      (NotAcceptable
         ("Software environment supplied is not fully specified, OS name is 'rhel' "
          +:+ "in version None using Python '3.6'")).
Proof. reflexivity. Qed.

Example monkey_two_stacks_capped :
  let out :=
    dependency_monkey (Demo.world Demo.two_stacks (Ok VNone))
      (Demo.monkey_args "http://amun" None (Some "1") false) in
  count_events is_pulled out.1 = 1
  /\ count_events is_output_call out.1 = 1
  /\ (exists result,
        printed_results out = [VDict result]
        /\ dict_get "computed" result = Some (VInt 1)
        /\ dict_get "output" result = Some (VList [VStr "inspection-a"]))
  /\ out.2 = Return 0.
Proof.
  cbv zeta. split; [reflexivity|]. split; [reflexivity|]. split; [|reflexivity].
  eexists. split; [reflexivity|]. split; reflexivity.
Qed.

Example monkey_directory_paths :
  (_dm_amun_directory_output "/tmp/stacks" (Demo.stack "1") 12).2
  = "/tmp/stacks/00012".
Proof. reflexivity. Qed.

(** * Further properties of the units *)

(** ** The order the wrap leaves behind *)

Lemma key_le_antisym (k1 k2 : key) : key_le k1 k2 -> key_le k2 k1 -> k1 = k2.
Proof.
  unfold key_le. rewrite (key_compare_antisym k2 k1).
  destruct (key_compare k1 k2) eqn:E; simpl; try done.
  intros _ _. by apply key_compare_eq.
Qed.

Lemma wrap_output_strongly_sorted (state : State) :
  StronglySorted (key_ordered SortJustificationsWrap.sort_key)
    (justification (SortJustificationsWrap.run state).1).
Proof. unfold SortJustificationsWrap.run; simpl. apply sort_by_key_strongly_sorted. Qed.

(** X1: Entries with the same key leave the wrap in the order they came in:
    Python's sort is stable. *)
Theorem sort_justifications_stable (state : State) (k : key) :
  filter (fun e => SortJustificationsWrap.sort_key e = k)
    (justification (SortJustificationsWrap.run state).1)
  = filter (fun e => SortJustificationsWrap.sort_key e = k) (justification state).
Proof. unfold SortJustificationsWrap.run. simpl. apply sort_by_key_stable. Qed.

(** X2: An entry without a package name, or with an empty one, is never
    preceded by an entry with a package name: the default [""] of
    [i.get("package_name", "")] is the least string. *)
Theorem sort_justifications_unnamed_first (state : State)
    (before : list Entry) (e1 : Entry) (between : list Entry) (e2 : Entry)
    (after : list Entry) :
  justification (SortJustificationsWrap.run state).1
  = before ++ e1 :: between ++ e2 :: after ->
  default "" (package_name e2) = "" ->
  default "" (package_name e1) = "".
Proof.
  intros Hsorted Hunnamed.
  pose proof (wrap_output_strongly_sorted state) as Hs.
  rewrite Hsorted in Hs.
  apply StronglySorted_app_1_r, StronglySorted_cons in Hs as [Hall _].
  rewrite Forall_app, Forall_cons in Hall. destruct Hall as (_ & Hle & _).
  unfold key_ordered, key_le, SortJustificationsWrap.sort_key, key_compare in Hle.
  rewrite Hunnamed in Hle.
  destruct (default "" (package_name e1)) as [|c s]; [done|].
  by destruct Hle.
Qed.

Lemma sort_justifications_unnamed_first_witness :
  default "" (package_name (Demo.entry None "ERROR" "y")) = "".
Proof.
  apply (sort_justifications_unnamed_first Demo.some_state
           [] (Demo.entry None "ERROR" "y") [] (Demo.entry None "WARNING" "y")
           [Demo.entry (Some "a") "INFO" "z"; Demo.entry (Some "b") "INFO" "x"]);
    reflexivity.
Defined.

(** X3: When entries with the same key are the same entry, the order the wrap
    produces does not depend on the order the entries came in: two states
    with the same entries end with the same justification list. *)
Theorem sort_justifications_reproducible (state1 state2 : State) :
  justification state1 ≡ₚ justification state2 ->
  (forall e e', e ∈ justification state1 -> e' ∈ justification state1 ->
     SortJustificationsWrap.sort_key e = SortJustificationsWrap.sort_key e' ->
     e = e') ->
  justification (SortJustificationsWrap.run state1).1
  = justification (SortJustificationsWrap.run state2).1.
Proof.
  intros Hperm Hdistinct.
  apply (StronglySorted_unique_strong (key_ordered SortJustificationsWrap.sort_key)).
  - unfold SortJustificationsWrap.run. simpl. intros e e' He He' Hle Hle'.
    rewrite sort_by_key_perm in He, He'. rewrite <- Hperm in He'.
    apply Hdistinct; [exact He|exact He'|]. by apply key_le_antisym.
  - apply wrap_output_strongly_sorted.
  - apply wrap_output_strongly_sorted.
  - unfold SortJustificationsWrap.run. simpl. by rewrite !sort_by_key_perm.
Qed.

Lemma sort_justifications_reproducible_witness :
  justification (SortJustificationsWrap.run Demo.some_state).1
  = justification
      (SortJustificationsWrap.run
         (mkState ∅ [] 0%Qc (reverse (justification Demo.some_state)))).1.
Proof.
  apply sort_justifications_reproducible.
  - simpl. by rewrite reverse_Permutation.
  - intros e e' He He' Hkey. simpl in He, He'.
    repeat (apply elem_of_cons in He as [->|He]);
      try (by apply elem_of_nil in He);
      repeat (apply elem_of_cons in He' as [->|He']);
      try (by apply elem_of_nil in He'); try reflexivity; discriminate Hkey.
Defined.

(** X4: A justification list that is already in key order is left as it is:
    the state after the wrap is the state before. *)
Theorem sort_justifications_sorted_unchanged (state : State) :
  Sorted (key_ordered SortJustificationsWrap.sort_key) (justification state) ->
  SortJustificationsWrap.run state = (state, Returned).
Proof.
  intros Hsorted. unfold SortJustificationsWrap.run.
  rewrite (sort_by_key_fixpoint _ _ Hsorted). by destruct state.
Qed.

Lemma sort_justifications_sorted_unchanged_witness :
  SortJustificationsWrap.run
    (mkState ∅ [] 0%Qc [Demo.entry None "INFO" "a"; Demo.entry (Some "p") "INFO" "a"])
  = (mkState ∅ [] 0%Qc [Demo.entry None "INFO" "a"; Demo.entry (Some "p") "INFO" "a"],
     Returned).
Proof.
  apply sort_justifications_sorted_unchanged. simpl.
  repeat constructor. unfold key_ordered, key_le. vm_compute. discriminate.
Defined.

(** * Further properties of the command-line helpers *)

(** ** Un-escaping new lines *)

Lemma unescape_newlines_cons (c : ascii) (rest : string) :
  unescape_newlines (String c rest)
  = if Ascii.eqb c "\"%char then
      match rest with
      | String c' r =>
          if Ascii.eqb c' "n"%char then String "010"%char (unescape_newlines r)
          else String c (unescape_newlines rest)
      | EmptyString => String c EmptyString
      end
    else String c (unescape_newlines rest).
Proof.
  destruct c as [[] [] [] [] [] [] [] []]; try reflexivity.
  destruct rest as [|[[] [] [] [] [] [] [] []] r]; reflexivity.
Qed.

(** Un-escaping puts an [n] in front only where there was one. *)
Lemma unescape_newlines_head_n (s t : string) :
  unescape_newlines s = String "n"%char t -> exists r, s = String "n"%char r.
Proof.
  destruct s as [|c rest]; [done|]. rewrite unescape_newlines_cons.
  destruct (Ascii.eqb_spec c "\"%char) as [->|Hc].
  - destruct rest as [|c' r]; [done|]. by destruct (Ascii.eqb c' "n"%char).
  - intros [= -> _]. eauto.
Qed.

Lemma unescape_newlines_idempotent_bounded (n : nat) (s : string) :
  (String.length s <= n)%nat ->
  unescape_newlines (unescape_newlines s) = unescape_newlines s.
Proof.
  revert s. induction n as [|n IH]; intros s Hlen.
  { destruct s; [done|simpl in Hlen; lia]. }
  destruct s as [|c rest]; [done|]. simpl in Hlen.
  rewrite (unescape_newlines_cons c rest).
  destruct (Ascii.eqb_spec c "\"%char) as [->|Hc].
  - destruct rest as [|c' r]; [done|].
    destruct (Ascii.eqb_spec c' "n"%char) as [->|Hc'].
    + rewrite unescape_newlines_cons.
      change (Ascii.eqb "010"%char "\"%char) with false. cbv iota.
      rewrite IH; [done|]. simpl in Hlen. lia.
    + rewrite unescape_newlines_cons. rewrite Ascii.eqb_refl.
      destruct (unescape_newlines (String c' r)) as [|c'' r''] eqn:Hrest; [done|].
      destruct (Ascii.eqb_spec c'' "n"%char) as [->|Hc''].
      { apply unescape_newlines_head_n in Hrest as [r0 [= -> _]]. done. }
      rewrite <- Hrest, IH; [done|lia].
  - rewrite unescape_newlines_cons.
    destruct (Ascii.eqb_spec c "\"%char) as [->|_]; [done|].
    rewrite IH; [done|lia].
Qed.

(** X5: Un-escaping leaves nothing to un-escape: no backslash followed by [n]
    survives, so a second pass changes nothing. *)
Theorem unescape_newlines_idempotent (s : string) :
  unescape_newlines (unescape_newlines s) = unescape_newlines s.
Proof. by apply (unescape_newlines_idempotent_bounded (String.length s)). Qed.

(** X6: Requirements without a backslash are handed on as they are. *)
Theorem unescape_newlines_plain (s : string) :
  "\"%char ∉ String.list_ascii_of_string s -> unescape_newlines s = s.
Proof.
  induction s as [|c rest IH]; [done|]. simpl String.list_ascii_of_string.
  intros Hnot. apply not_elem_of_cons in Hnot as [Hc Hrest].
  rewrite unescape_newlines_cons.
  destruct (Ascii.eqb_spec c "\"%char) as [->|_]; [done|].
  by rewrite IH.
Qed.

Lemma unescape_newlines_plain_witness :
  unescape_newlines "requests>=2.0" = "requests>=2.0".
Proof.
  apply unescape_newlines_plain. apply (bool_decide_unpack _). reflexivity.
Defined.

(** ** Splitting the whitelisted sources *)

Lemma split_comma_nonempty (s : string) : split_comma s <> [].
Proof.
  destruct s as [|c rest]; simpl; [done|].
  destruct (Ascii.eqb c ","%char); [done|]. by destruct (split_comma rest).
Qed.

Lemma split_comma_join (s : string) : String.concat "," (split_comma s) = s.
Proof.
  induction s as [|c rest IH]; [done|]. simpl.
  pose proof (split_comma_nonempty rest) as Hne.
  destruct (Ascii.eqb_spec c ","%char) as [->|Hc].
  - destruct (split_comma rest) as [|h t]; [done|]. simpl in *. by rewrite IH.
  - destruct (split_comma rest) as [|h t]; [done|].
    destruct t as [|h' t]; simpl in *; by rewrite <- IH.
Qed.

Lemma split_comma_pieces (s : string) :
  Forall (fun piece => ","%char ∉ String.list_ascii_of_string piece) (split_comma s).
Proof.
  induction s as [|c rest IH]; simpl.
  - repeat constructor. apply not_elem_of_nil.
  - destruct (Ascii.eqb_spec c ","%char) as [->|Hc].
    + constructor; [apply not_elem_of_nil|done].
    + destruct (split_comma rest) as [|h t].
      * repeat constructor. simpl. by apply not_elem_of_cons; split; [|apply not_elem_of_nil].
      * inversion IH; subst. constructor; [|done]. simpl.
        by apply not_elem_of_cons.
Qed.

(** X7: The whitelist is empty exactly when no sources, or an empty string of
    sources, were given; otherwise the option is cut at every comma: no index
    contains a comma, and joining the indexes with commas gives the option
    back (so two commas in a row, or a comma at an end, give an empty index). *)
Theorem whitelisted_sources_split (a : ProvenanceArgs) :
  (whitelisted a = [] <-> truthy_str (pa_whitelisted_sources a) = false)
  /\ (forall s, pa_whitelisted_sources a = Some s -> s <> "" ->
        String.concat "," (whitelisted a) = s
        /\ Forall (fun index => ","%char ∉ String.list_ascii_of_string index) (whitelisted a)).
Proof.
  unfold whitelisted. destruct (pa_whitelisted_sources a) as [s|]; simpl.
  - destruct (String.eqb_spec s "") as [->|Hs]; simpl.
    + split; [done|]. by intros ? [= <-].
    + split.
      * split; [|done]. intros Hnil. by destruct (split_comma_nonempty s).
      * intros ? [= <-] _. split; [apply split_comma_join|apply split_comma_pieces].
  - split; [done|]. by intros ? [=].
Qed.

Lemma whitelisted_sources_split_witness :
  String.concat ","
    (whitelisted
       (mkProvenanceArgs "" None (Some "https://pypi.org/simple/,,https://tf/") "-"
          false false))
  = "https://pypi.org/simple/,,https://tf/".
Proof.
  apply (proj2 (whitelisted_sources_split
                  (mkProvenanceArgs "" None
                     (Some "https://pypi.org/simple/,,https://tf/") "-" false false))
           _ eq_refl).
  discriminate.
Defined.

(** ** Instantiating the project *)

Lemma unescape_newlines_empty (s : string) :
  unescape_newlines s = "" -> s = "".
Proof.
  destruct s as [|c rest]; [done|]. rewrite unescape_newlines_cons.
  destruct (Ascii.eqb c "\"%char); [|done].
  destruct rest as [|c' r]; [done|]. by destruct (Ascii.eqb c' "n"%char).
Qed.

(** X8: Whether an instantiated project has a lock: without locked
    requirements, or with an empty string for them, it has none and
    [PipfileLock.from_string] is not asked; with locked requirements from the
    environment it has one; with a lock file it has one unless the file is
    empty. *)
Theorem instantiate_project_lock (w : World) (requirements : string)
    (requirements_locked : option string) (files : bool) (project : Project) :
  _instantiate_project w requirements requirements_locked files = Ok project ->
  (truthy_str requirements_locked = false -> pipfile_lock project = None)
  /\ (truthy_str requirements_locked = true -> files = false ->
      is_Some (pipfile_lock project))
  /\ (forall path, requirements_locked = Some path -> path <> "" -> files = true ->
        (pipfile_lock project = None <-> read_file w path = Ok "")).
Proof.
  unfold _instantiate_project. intros Hproject.
  destruct requirements_locked as [locked|]; simpl in *;
    [destruct (String.eqb_spec locked "") as [->|Hlocked]|];
    destruct files;
    cbv [mbind mret fmap raising_bind raising_ret raising_fmap truthy_str]
      in Hproject;
    repeat (simplify_eq/=; case_match); simplify_eq/=;
    (split; [|split]); intros; simplify_eq/=; try done; try (by eexists).
  - match goal with
    | H : negb (String.eqb _ "") = true |- _ =>
        apply negb_true_iff, String.eqb_neq in H
    end.
    split; [done|]. intros Hread. congruence.
  - match goal with
    | H : negb (String.eqb _ "") = false |- _ =>
        apply negb_false_iff, String.eqb_eq in H
    end.
    split; [|done]. intros _. congruence.
  - match goal with
    | H : negb (String.eqb (unescape_newlines _) "") = false |- _ =>
        apply negb_false_iff, String.eqb_eq, unescape_newlines_empty in H
    end.
    done.
Qed.

Lemma instantiate_project_lock_witness :
  pipfile_lock Demo.the_pipfile_project = None.
Proof.
  apply (proj1 (instantiate_project_lock (Demo.world WStop (Ok VNone))
                  "a>=1,<3" (Some "") false Demo.the_pipfile_project eq_refl)).
  reflexivity.
Defined.

(** ** Filling in package digests *)

(** What [_fill_package_digests] does to one locked package: name and
    version stay, the hashes it had stay in front, and what is appended are
    the digests of the index, each marked ["sha256:"]. *)
Definition digests_appended (w : World) (before after : PackageVersion) : Prop :=
  name after = name before
  /\ locked_version after = locked_version before
  /\ exists added,
       hashes after = hashes before ++ added
       /\ length added
          = length (get_package_hashes w (name before) (locked_version before))
       /\ Forall (fun h => String.prefix "sha256:" h = true) added.

Lemma prefix_app (s t : string) : String.prefix s (s +:+ t) = true.
Proof.
  induction s as [|c s IH]; simpl; [by destruct t|].
  by destruct (ascii_dec c c).
Qed.

Lemma digests_appended_fill (w : World) (packages : list PackageVersion) :
  Forall2 (digests_appended w) packages
    ((fun package_version =>
        mkPackageVersion (name package_version) (locked_version package_version)
          (hashes package_version
             ++ ((fun sha256 => "sha256:" +:+ sha256)
                   <$> get_package_hashes w (name package_version)
                         (locked_version package_version)))) <$> packages).
Proof.
  induction packages as [|pv packages IH]; simpl; constructor; [|done].
  repeat split. eexists. split; [reflexivity|]. split; [by rewrite length_fmap|].
  apply Forall_fmap, Forall_true. intros h. apply prefix_app.
Qed.

(** X9: [_fill_package_digests] fails exactly on a project without a lock.  On
    a project with one it keeps the Pipfile, the packages with their names and
    versions and the hashes they had, and appends to every package and
    development package the digests of the index, marked ["sha256:"]; it does
    not check for digests that are already there. *)
Theorem fill_package_digests_appends (w : World) (generated_project : Project) :
  ((exists exc, _fill_package_digests w generated_project = Err exc)
     <-> pipfile_lock generated_project = None)
  /\ (forall filled,
        _fill_package_digests w generated_project = Ok filled ->
        pipfile filled = pipfile generated_project
        /\ exists lock lock',
             pipfile_lock generated_project = Some lock
             /\ pipfile_lock filled = Some lock'
             /\ Forall2 (digests_appended w) (packages lock) (packages lock')
             /\ Forall2 (digests_appended w) (dev_packages lock) (dev_packages lock')).
Proof.
  unfold _fill_package_digests.
  destruct (pipfile_lock generated_project) as [lock|]; split.
  - split; [by intros [? ?]|done].
  - intros filled [= <-]. split; [done|]. eexists _, _.
    split; [done|]. split; [done|]. split; apply digests_appended_fill.
  - split; [done|]. eauto.
  - done.
Qed.

Lemma fill_package_digests_appends_witness :
  pipfile_lock Demo.the_pipfile_project = None
  /\ exists filled lock',
       _fill_package_digests (Demo.world WStop (Ok VNone)) (Demo.stack "1") = Ok filled
       /\ pipfile_lock filled = Some lock'
       /\ hashes <$> packages lock' = [["sha256:0f0f"]].
Proof.
  split.
  - apply (proj1 (fill_package_digests_appends (Demo.world WStop (Ok VNone))
                    Demo.the_pipfile_project)).
    eexists. reflexivity.
  - eexists. 
    destruct (proj2 (fill_package_digests_appends (Demo.world WStop (Ok VNone))
                       (Demo.stack "1")) _ eq_refl)
      as (_ & lock & lock' & _ & Hlock' & _).
    exists lock'. split; [reflexivity|]. split; [exact Hlock'|].
    by injection Hlock' as <-.
Defined.

(** ** The directory of a generated stack *)

Lemma pretty_N_go_head (x : N) (s : string) :
  (0 < x)%N ->
  exists d r, (0 < d < 10)%N /\ pretty_N_go x s = String (pretty_N_char d) r.
Proof.
  revert s. induction (N.lt_wf_0 x) as [x _ IH]; intros s Hx.
  rewrite pretty_N_go_step by done.
  destruct (decide (x `div` 10 = 0)%N) as [Hdiv|Hdiv].
  - rewrite Hdiv, pretty_N_go_0. exists (x `mod` 10)%N, s. split; [|done].
    apply N.div_small_iff in Hdiv; [|done]. rewrite N.mod_small by done. lia.
  - apply IH; [apply N.div_lt; lia|]. by apply N.neq_0_lt_0.
Qed.

Lemma pretty_N_char_not_zero (d : N) :
  (0 < d < 10)%N -> pretty_N_char d <> "0"%char /\ pretty_N_char d <> "/"%char.
Proof.
  intros Hd.
  assert (d = 1 \/ d = 2 \/ d = 3 \/ d = 4 \/ d = 5 \/ d = 6 \/ d = 7 \/ d = 8
          \/ d = 9)%N as Hcases by lia.
  repeat (destruct Hcases as [->|Hcases]); try subst d; by split.
Qed.

(** [k] zeros, as the padding of [format_05d] builds them. *)
Definition zeros (k : nat) : string := String.concat "" (replicate k "0").

Lemma zeros_S (k : nat) : zeros (S k) = String "0"%char (zeros k).
Proof. unfold zeros. simpl. by destruct k. Qed.

Lemma zeros_strip (a b : nat) (s t : string) (c c' : ascii) :
  c <> "0"%char -> c' <> "0"%char ->
  zeros a +:+ String c s = zeros b +:+ String c' t -> String c s = String c' t.
Proof.
  intros Hc Hc'. revert b. induction a as [|a IH]; intros [|b];
    rewrite ?zeros_S; simpl.
  - done.
  - intros [= -> _]. done.
  - intros [= <- _]. done.
  - intros [= H]. by apply IH in H.
Qed.

(** For a positive number, [format_05d] is zeros followed by the decimal
    digits, the first of which is not a zero. *)
Lemma format_05d_positive (n : Z) :
  0 < n ->
  exists k d r,
    (0 < d < 10)%N
    /\ pretty (Z.abs_N n) = String (pretty_N_char d) r
    /\ format_05d n = zeros k +:+ String (pretty_N_char d) r.
Proof.
  intros Hn. unfold format_05d.
  assert ((n <? 0) = false) as -> by lia.
  assert (0 < Z.abs_N n)%N as Hpos by lia.
  assert (pretty (Z.abs_N n) = pretty_N_go (Z.abs_N n) "") as Hpretty.
  { unfold pretty, pretty_N. destruct (decide (Z.abs_N n = 0%N)); [lia|done]. }
  destruct (pretty_N_go_head (Z.abs_N n) "" Hpos) as (d & r & Hd & Hgo).
  rewrite Hpretty, Hgo. eexists _, d, r. split; [done|]. split; [done|].
  reflexivity.
Qed.

Lemma format_05d_inj (m n : Z) :
  0 < m -> 0 < n -> format_05d m = format_05d n -> m = n.
Proof.
  intros Hm Hn Heq.
  destruct (format_05d_positive m Hm) as (k & d & r & Hd & Hpretty & Hformat).
  destruct (format_05d_positive n Hn) as (k' & d' & r' & Hd' & Hpretty' & Hformat').
  rewrite Hformat, Hformat' in Heq.
  apply zeros_strip in Heq;
    [|by apply pretty_N_char_not_zero|by apply pretty_N_char_not_zero].
  rewrite <- Hpretty, <- Hpretty' in Heq.
  apply (inj pretty) in Heq. lia.
Qed.

Lemma prefix_slash_cons (c : ascii) (r : string) :
  c <> "/"%char -> String.prefix "/" (String c r) = false.
Proof.
  intros Hc.
  change (String.prefix "/" (String c r))
    with (match ascii_dec "/" c with
          | left _ => String.prefix "" r
          | right _ => false
          end).
  destruct (ascii_dec "/" c) as [Heq|]; [by destruct Hc|done].
Qed.

Lemma format_05d_relative (n : Z) : 0 < n -> String.prefix "/" (format_05d n) = false.
Proof.
  intros Hn. destruct (format_05d_positive n Hn) as (k & d & r & Hd & _ & ->).
  destruct k as [|k]; rewrite ?zeros_S.
  - apply prefix_slash_cons. by apply pretty_N_char_not_zero.
  - by apply prefix_slash_cons.
Qed.

Lemma string_app_inv_head (s t t' : string) : s +:+ t = s +:+ t' -> t = t'.
Proof. induction s as [|c s IH]; simpl; [done|]. intros [= H]. by apply IH. Qed.

(** Joining a relative name to a directory gives a path below it. *)
Lemma path_join_relative (a b : string) :
  String.prefix "/" b = false ->
  exists sep, path_join a b = a +:+ sep +:+ b /\ (sep = "" \/ sep = "/").
Proof.
  intros Hb. unfold path_join. rewrite Hb.
  destruct (String.eqb a "" || ends_with_slash a).
  - exists "". auto.
  - exists "/". auto.
Qed.

Lemma directory_path_nonempty (output : string) (p : Project) (m : Z) :
  0 < m -> (_dm_amun_directory_output output p m).2 <> "".
Proof.
  intros Hm. unfold _dm_amun_directory_output. simpl.
  destruct (path_join_relative output (format_05d m) (format_05d_relative m Hm))
    as (sep & Hjoin & Hsep).
  rewrite Hjoin. destruct (format_05d_positive m Hm) as (k & d & r & _ & _ & ->).
  intros Hempty. destruct output; [|done]. simpl in Hempty.
  destruct Hsep as [-> | ->]; [|done]. simpl in Hempty.
  destruct k; rewrite ?zeros_S in Hempty; done.
Qed.

(** X10: Stacks with different numbers are written to different directories,
    each below the output directory, and the two files of a stack are written
    below the directory of the stack, which is the entry returned. *)
Theorem directory_output_paths (output : string) (p p' : Project) (m n : Z) :
  0 < m -> 0 < n ->
  ((_dm_amun_directory_output output p m).2
   = (_dm_amun_directory_output output p' n).2 -> m = n)
  /\ String.prefix output (_dm_amun_directory_output output p m).2 = true
  /\ (_dm_amun_directory_output output p m).2 <> ""
  /\ exists pipfile_path lock_path,
       (_dm_amun_directory_output output p m).1
       = [EvMakedirs (_dm_amun_directory_output output p m).2;
          EvToFiles pipfile_path lock_path p]
       /\ String.prefix (_dm_amun_directory_output output p m).2 pipfile_path = true
       /\ String.prefix (_dm_amun_directory_output output p m).2 lock_path = true.
Proof.
  intros Hm Hn. unfold _dm_amun_directory_output. simpl.
  destruct (path_join_relative output (format_05d m) (format_05d_relative m Hm))
    as (sep & Hjoin & Hsep).
  split; [|split; [|split]].
  - unfold path_join.
    rewrite (format_05d_relative m Hm), (format_05d_relative n Hn).
    destruct (String.eqb output "" || ends_with_slash output); intros Heq.
    + by apply string_app_inv_head, format_05d_inj in Heq.
    + by apply string_app_inv_head, string_app_inv_head, format_05d_inj in Heq.
  - rewrite Hjoin. apply prefix_app.
  - rewrite Hjoin. destruct (format_05d_positive m Hm) as (k & d & r & _ & _ & ->).
    intros Hempty. destruct output; [|done]. simpl in Hempty.
    destruct Hsep as [-> | ->]; [|done]. simpl in Hempty.
    destruct k; rewrite ?zeros_S in Hempty; done.
  - eexists _, _. split; [reflexivity|].
    split.
    + destruct (path_join_relative (path_join output (format_05d m)) "Pipfile" eq_refl)
        as (sep' & -> & _). apply prefix_app.
    + destruct (path_join_relative (path_join output (format_05d m)) "Pipfile.lock"
                  eq_refl) as (sep' & -> & _). apply prefix_app.
Qed.

Lemma directory_output_paths_witness :
  String.prefix "/tmp/stacks"
    (_dm_amun_directory_output "/tmp/stacks" (Demo.stack "1") 7).2 = true.
Proof.
  apply (directory_output_paths "/tmp/stacks" (Demo.stack "1") (Demo.stack "2") 7 8);
    lia.
Defined.

(** ** The Amun wrapper *)

Lemma dict_set_set (k : string) (v v' : value) (d : list (string * value)) :
  dict_set k v' (dict_set k v d) = dict_set k v' d.
Proof.
  induction d as [|[k0 v0] d IH]; simpl.
  - by rewrite String.eqb_refl.
  - destruct (String.eqb k0 k) eqn:E; simpl.
    + by rewrite String.eqb_refl.
    + by rewrite E, IH.
Qed.

(** X11: With a dictionary as context the wrapper does not raise, whatever Amun
    does: it submits the context with the project under ["python"], all
    other keys as they were, and returns the inspection id or [None].  The
    context of one stack does not leak into the next: what is submitted for a
    second stack is what would be submitted for it alone. *)
Theorem amun_inspect_wrapper_context (w : World) (output : string)
    (d : list (string * value)) (p p' : Project) (count count' : Z) :
  exists d',
    _dm_amun_inspect_wrapper w output (VDict d) p count
    = ([EvAmunInspect output (VDict d')], VDict d',
       Ok (amun_inspect w output (VDict d')))
    /\ dict_get "python" d' = Some (project_to_dict w p)
    /\ (forall k, k <> "python" -> dict_get k d' = dict_get k d)
    /\ _dm_amun_inspect_wrapper w output (VDict d') p' count'
       = _dm_amun_inspect_wrapper w output (VDict d) p' count'.
Proof.
  eexists. split; [reflexivity|]. split; [apply dict_get_set_eq|].
  split; [intros k Hk; by apply dict_get_set_ne|].
  unfold _dm_amun_inspect_wrapper. by rewrite dict_set_set.
Qed.

(** X12: A context that is not a dictionary is not submitted: the wrapper raises
    a [TypeError] before it calls Amun, and, this being outside its [try], the
    exception leaves the wrapper. *)
Theorem amun_inspect_wrapper_not_a_dict (w : World) (output : string)
    (context : value) (p : Project) (count : Z) :
  (forall d, context <> VDict d) ->
  exists msg,
    _dm_amun_inspect_wrapper w output context p count
    = ([], context, Err (TypeError msg)).
Proof.
  intros Hnot. unfold _dm_amun_inspect_wrapper.
  destruct context; try (by eexists). by destruct (Hnot d).
Qed.

Lemma amun_inspect_wrapper_not_a_dict_witness :
  exists msg,
    _dm_amun_inspect_wrapper (Demo.world WStop (Ok VNone)) "http://amun"
      (VList [VInt 1]) (Demo.stack "1") 1
    = ([], VList [VInt 1], Err (TypeError msg)).
Proof. by apply amun_inspect_wrapper_not_a_dict. Defined.

(** * Further properties of the commands *)

(** ** [provenance] and [advise] on other paths *)

(** X13: An exception that is not a [ThothAdviserException] (a file that cannot
    be read, say) is not caught by [provenance] or [advise]: it leaves the
    command and nothing is printed. *)
Theorem workflow_other_exceptions (w : World) (exc : exception) :
  isinstance (classes w) exc "ThothAdviserException" = false ->
  (forall a : ProvenanceArgs,
     (provenance_try w a (provenance_result a)).2 = Err exc ->
     provenance w a = ([], Propagated exc))
  /\ (forall a : AdviseArgs,
        (advise_try w a (advise_result a)).2 = Err exc ->
        advise w a = ([], Propagated exc)).
Proof.
  intros Hother. split; intros a Htry.
  - unfold provenance.
    destruct (provenance_try w a (provenance_result a)) as [result body].
    simpl in Htry. subst body. by rewrite Hother.
  - unfold advise.
    destruct (advise_try w a (advise_result a)) as [result body].
    simpl in Htry. subst body. by rewrite Hother.
Qed.

Lemma workflow_other_exceptions_witness :
  provenance (Demo.world WStop (Ok VNone))
    (mkProvenanceArgs "Pipfile" (Some "Pipfile.lock") None "-" true false)
  = ([], Propagated (Exception "FileNotFoundError" "No such file")).
Proof.
  apply (proj1 (workflow_other_exceptions (Demo.world WStop (Ok VNone))
                  (Exception "FileNotFoundError" "No such file") eq_refl)).
  reflexivity.
Defined.

(** X14: When the provenance check returns a report, [provenance] prints once,
    with [error] set to [False], the report as it was returned, the project
    as input and the whitelist as the only parameter, and exits with 0. *)
Theorem provenance_report (w : World) (a : ProvenanceArgs) (project : Project)
    (report : value) :
  _instantiate_project w (pa_requirements a) (pa_requirements_locked a) (pa_files a)
  = Ok project ->
  check_provenance w project (whitelisted a) = Ok report ->
  exists result,
    provenance w a
    = ([EvPrinted (VDict result) (pa_output a) (negb (pa_no_pretty a))], Return 0)
    /\ dict_get "error" result = Some (VBool false)
    /\ dict_get "report" result = Some report
    /\ dict_get "input" result = Some (project_to_dict w project)
    /\ dict_get "parameters" result
       = Some (VDict [("whitelisted_indexes", VList (VStr <$> whitelisted a))])
    /\ length result = 4%nat.
Proof.
  intros Hproject Hreport. unfold provenance, provenance_try.
  rewrite Hproject, Hreport. eexists. split; [reflexivity|]. by repeat split.
Qed.

Lemma provenance_report_witness :
  exists result,
    provenance (Demo.world WStop (Ok (VList [VStr "unknown index"])))
      Demo.provenance_args
    = ([EvPrinted (VDict result) "-" true], Return 0)
    /\ dict_get "report" result = Some (VList [VStr "unknown index"]).
Proof.
  destruct (provenance_report (Demo.world WStop (Ok (VList [VStr "unknown index"])))
              Demo.provenance_args (mkProject Demo.the_pipfile
                                      (Some (mkPipfileLock [] [])))
              (VList [VStr "unknown index"]) eq_refl eq_refl)
    as (result & Hout & _ & Hreport & _).
  exists result. by split.
Defined.

(** X15: When [advise] has nothing to suggest (the report is empty or [None]),
    the result keeps its empty report and its two outputs stay [None]: the
    input is not replicated.  When there is a report, it is printed together
    with the Pipfile and the lock in the format asked for; if the advised
    project has no lock the command fails with an [AttributeError] and prints
    nothing.  In both printed cases [error] is [False] and the exit code 0. *)
Theorem advise_report (w : World) (a : AdviseArgs) (project advised : Project)
    (report : value) :
  _instantiate_project w (aa_requirements a) (aa_requirements_locked a) (aa_files a)
  = Ok project ->
  project_advise w project (aa_runtime_environment a) (aa_recommendation_type a)
  = Ok (report, advised) ->
  (truthy report = false ->
   exists result,
     advise w a
     = ([EvPrinted (VDict result) (aa_output a) (negb (aa_no_pretty a))], Return 0)
     /\ dict_get "error" result = Some (VBool false)
     /\ dict_get "report" result = Some (VList [])
     /\ dict_get "output" result
        = Some (VDict [("requirements", VNone); ("requirements_locked", VNone)]))
  /\ (truthy report = true ->
      forall lock, pipfile_lock advised = Some lock ->
      exists result,
        advise w a
        = ([EvPrinted (VDict result) (aa_output a) (negb (aa_no_pretty a))],
           Return 0)
        /\ dict_get "error" result = Some (VBool false)
        /\ dict_get "report" result = Some report
        /\ dict_get "output" result
           = Some (VDict
                     match aa_requirements_format a with
                     | PIPENV =>
                         [("requirements", pipfile_to_dict w (pipfile advised));
                          ("requirements_locked", pipfile_lock_to_dict w lock)]
                     | REQUIREMENTS =>
                         [("requirements",
                            pipfile_to_requirements_file w (pipfile advised));
                          ("requirements_locked",
                            pipfile_lock_to_requirements_file w lock)]
                     end))
  /\ (truthy report = true -> pipfile_lock advised = None ->
      exists msg, advise w a = ([], Propagated (AttributeError msg))).
Proof.
  intros Hproject Hadvise. unfold advise, advise_try.
  rewrite Hproject, Hadvise. split; [|split].
  - intros ->. eexists. split; [reflexivity|]. by repeat split.
  - intros -> lock ->.
    destruct (aa_requirements_format a); eexists; (split; [reflexivity|]);
      by repeat split.
  - intros -> ->. by eexists.
Qed.

Lemma advise_report_witness :
  exists result,
    advise (Demo.world WStop (Ok (VList []))) Demo.advise_args
    = ([EvPrinted (VDict result) "-" true], Return 0)
    /\ dict_get "report" result = Some (VList []).
Proof.
  destruct (proj1 (advise_report (Demo.world WStop (Ok (VList []))) Demo.advise_args
                     Demo.the_pipfile_project Demo.the_pipfile_project (VList [])
                     eq_refl eq_refl) eq_refl)
    as (result & Hout & _ & Hreport & _).
  exists result. by split.
Defined.

(** ** [dependency_monkey] on other paths *)

Lemma monkey_try_raised (w : World) (a : MonkeyArgs) (su : monkey_setup)
    (st : monkey_state) (exc : exception) :
  monkey_try w a su (monkey_start w a su) = (st, Some exc) ->
  extends (monkey_start w a su) st.
Proof.
  unfold monkey_try.
  destruct (from_project w (su_project su)) as [g|exc'].
  - pose proof (walk_loop_extends w (su_output_function su) (dry_run a) (su_count su)
                  (walk w g (decision a) (su_seed su)) (monkey_start w a su)) as Hext.
    destruct (walk_loop w _ _ _ _ _) as [[st' raised] rest]. simpl in Hext.
    destruct raised; [|done]. by intros [= <- <-].
  - intros [= <- <-]. apply extends_refl.
Qed.

(** X16: Only a [SolverException] is caught: any other exception that leaves
    the [try] block (from building the graph, the walk, the digests or the
    output function) leaves the command.  Nothing is printed, while the stacks
    handed out before stay handed out. *)
Theorem dependency_monkey_other_exceptions (w : World) (a : MonkeyArgs)
    (su : monkey_setup) (st : monkey_state) (exc : exception) :
  monkey_prepare w a = inr su ->
  monkey_try w a su (monkey_start w a su) = (st, Some exc) ->
  isinstance (classes w) exc "SolverException" = false ->
  dependency_monkey w a = (ms_events st, Propagated exc)
  /\ printed_results (dependency_monkey w a) = []
  /\ count_events is_output_call (dependency_monkey w a).1
     <= count_events is_pulled (dependency_monkey w a).1.
Proof.
  intros Hprepare Htry Hother.
  pose proof (monkey_prepare_setup w a su Hprepare) as [_ Heff].
  pose proof (monkey_try_raised w a su st exc Htry) as Hext.
  destruct (monkey_nothing_printed w a su st Heff Hext) as (Hprinted & Hpulled & Hcalls).
  assert (dependency_monkey w a = (ms_events st, Propagated exc)) as ->.
  { unfold dependency_monkey. rewrite Hprepare. unfold monkey_main.
    by rewrite Htry, Hother. }
  split; [done|]. split; [by apply printed_results_none|]. simpl. lia.
Qed.

Lemma dependency_monkey_other_exceptions_witness :
  exists evs,
    dependency_monkey
      (Demo.world (WYield Demo.the_pipfile_project WStop) (Ok VNone))
      (Demo.monkey_args "-" None None false)
    = (evs, Propagated (AttributeError "'NoneType' object has no attribute 'packages'")).
Proof.
  edestruct (fun su st =>
               dependency_monkey_other_exceptions
                 (Demo.world (WYield Demo.the_pipfile_project WStop) (Ok VNone))
                 (Demo.monkey_args "-" None None false) su st
                 (AttributeError "'NoneType' object has no attribute 'packages'"))
    as (Hout & _).
  - reflexivity.
  - reflexivity.
  - reflexivity.
  - eexists. exact Hout.
Defined.

(** X17: When building the dependency graph already raises a [SolverException],
    no stack is pulled: the result is printed with [error] set, an empty
    [output] and [computed] still [None], and the exit code is 1. *)
Theorem dependency_monkey_graph_fails (w : World) (a : MonkeyArgs) (su : monkey_setup)
    (exc : exception) :
  monkey_prepare w a = inr su ->
  from_project w (su_project su) = Err exc ->
  isinstance (classes w) exc "SolverException" = true ->
  exists result,
    dependency_monkey w a
    = (su_events su
         ++ [EvPrinted (VDict result) (report_output a) (negb (no_pretty a))],
       Return 1)
    /\ dict_get "error" result = Some (VBool true)
    /\ dict_get "output" result = Some (VList [])
    /\ dict_get "computed" result = Some VNone
    /\ dict_get "report" result = Some (VList []).
Proof.
  intros Hprepare Hgraph Hsolver. eexists. split.
  - unfold dependency_monkey. rewrite Hprepare. unfold monkey_main, monkey_try.
    rewrite Hgraph, Hsolver. reflexivity.
  - by repeat split.
Qed.

Lemma dependency_monkey_graph_fails_witness :
  exists result,
    dependency_monkey
      (mkWorld Demo.classes (fun _ => Ok "") (fun _ => Ok Demo.the_pipfile)
         (fun _ _ => Ok (mkPipfileLock [] [])) Demo.project_to_dict
         (fun _ => VNone) Demo.lock_to_value (fun _ => VNone) (fun _ => VNone)
         (fun _ _ => Ok VNone) (fun p _ _ => Ok (VNone, p)) Demo.py_int
         Demo.json_loads (fun _ => true) Project (fun _ => Err Demo.no_releases)
         (fun _ _ _ => WStop) (fun _ _ => None) (fun _ _ => []))
      (Demo.monkey_args "-" None None false)
    = ([EvPrinted (VDict result) "-" true], Return 1).
Proof.
  edestruct (fun su =>
               dependency_monkey_graph_fails
                 (mkWorld Demo.classes (fun _ => Ok "") (fun _ => Ok Demo.the_pipfile)
                    (fun _ _ => Ok (mkPipfileLock [] [])) Demo.project_to_dict
                    (fun _ => VNone) Demo.lock_to_value (fun _ => VNone)
                    (fun _ => VNone) (fun _ _ => Ok VNone)
                    (fun p _ _ => Ok (VNone, p)) Demo.py_int Demo.json_loads
                    (fun _ => true) Project (fun _ => Err Demo.no_releases)
                    (fun _ _ _ => WStop) (fun _ _ => None) (fun _ _ => []))
                 (Demo.monkey_args "-" None None false) su Demo.no_releases)
    as (result & Hout & _).
  - reflexivity.
  - reflexivity.
  - reflexivity.
  - exists result. exact Hout.
Defined.

Lemma monkey_prepare_stdout (w : World) (a : MonkeyArgs) (su : monkey_setup) :
  stack_output a = "-" ->
  monkey_prepare w a = inr su ->
  su_output_function su = StdoutSink /\ su_events su = [].
Proof.
  intros Hstdout. unfold monkey_prepare.
  destruct (_instantiate_project w _ _ _) as [project|]; [|done].
  destruct (optional_int w (seed a)) as [sd|]; [|done].
  destruct (optional_int w (count a)) as [cnt|]; [|done].
  destruct (match cnt with Some c => c <=? 0 | None => false end); [done|].
  unfold select_output. rewrite Hstdout. simpl. by intros [= <-].
Qed.

Lemma walk_loop_stdout (w : World) (dry_run : bool) (count : option Z)
    (generator : walk_trace) (st : monkey_state) :
  dict_get "output" (ms_result (walk_loop w StdoutSink dry_run count generator st).1.1)
  = dict_get "output" (ms_result st).
Proof.
  revert st. induction generator as [|exc|p rest IH]; intros st; simpl; try done.
  destruct (_fill_package_digests w p) as [p'|exc]; simpl; [|done].
  destruct dry_run; simpl.
  - destruct (count_reached count (ms_computed st + 1)); simpl; [done|].
    by rewrite IH.
  - unfold emit. simpl.
    destruct (count_reached count (ms_computed st + 1)); simpl.
    + by rewrite dict_get_set_in_ne.
    + rewrite IH. simpl. by rewrite dict_get_set_in_ne.
Qed.

(** X18: With the standard output as stack output the stacks are only dumped:
    [result['output']] is empty in every result the command prints, dry run
    or not. *)
Theorem dependency_monkey_stdout_output (w : World) (a : MonkeyArgs) :
  stack_output a = "-" ->
  printed_results (dependency_monkey w a) = []
  \/ exists result,
       printed_results (dependency_monkey w a) = [VDict result]
       /\ dict_get "output" result = Some (VList []).
Proof.
  intros Hstdout. unfold dependency_monkey.
  destruct (monkey_prepare w a) as [[evs ex]|su] eqn:Hprepare.
  { apply monkey_prepare_early in Hprepare as [-> _]. by left. }
  destruct (monkey_prepare_stdout w a su Hstdout Hprepare) as [Hsink Hevents].
  pose proof (monkey_prepare_setup w a su Hprepare) as [_ Heff].
  unfold monkey_main, monkey_try.
  destruct (from_project w (su_project su)) as [g|exc].
  - pose proof (walk_loop_extends w (su_output_function su) (dry_run a) (su_count su)
                  (walk w g (decision a) (su_seed su)) (monkey_start w a su)) as Hext.
    pose proof (walk_loop_stdout w (dry_run a) (su_count su)
                  (walk w g (decision a) (su_seed su)) (monkey_start w a su)) as Hout.
    rewrite Hsink in *.
    destruct (walk_loop w StdoutSink _ _ _ _) as [[st raised] rest].
    simpl in Hext, Hout.
    destruct (monkey_nothing_printed w a su st Heff Hext) as (Hprinted & _ & _).
    destruct raised as [exc|].
    + destruct (isinstance (classes w) exc "SolverException").
      * right. eexists. split; [by apply printed_results_last|].
        by rewrite dict_get_set_ne, Hout.
      * left. by apply printed_results_none.
    + right. eexists. split; [by apply printed_results_last|].
      simpl. by rewrite dict_get_set_ne, Hout.
  - destruct (isinstance (classes w) exc "SolverException").
    + right. eexists. split.
      * apply printed_results_last. simpl. by rewrite Hevents.
      * reflexivity.
    + left. apply printed_results_none. simpl. by rewrite Hevents.
Qed.

Lemma dependency_monkey_stdout_output_witness :
  exists result,
    printed_results
      (dependency_monkey (Demo.world Demo.two_stacks (Ok VNone))
         (Demo.monkey_args "-" None None false))
    = [VDict result]
    /\ dict_get "output" result = Some (VList []).
Proof.
  destruct (dependency_monkey_stdout_output (Demo.world Demo.two_stacks (Ok VNone))
              (Demo.monkey_args "-" None None false) eq_refl)
    as [Hnone|Hsome]; [discriminate Hnone|exact Hsome].
Defined.

(** X19: An empty string for the seed or for the count is the same as none:
    [int] is not called on it, there is no cap, and the command does what it
    does without the option. *)
Theorem dependency_monkey_empty_options (w : World) (requirements stack_output
    report_output : string) (files : bool) (seed count : option string)
    (decision : string) (dry_run : bool) (context : option string)
    (no_pretty : bool) :
  dependency_monkey w
    (mkMonkeyArgs requirements stack_output report_output files (Some "") decision
       dry_run context no_pretty count)
  = dependency_monkey w
      (mkMonkeyArgs requirements stack_output report_output files None decision
         dry_run context no_pretty count)
  /\ dependency_monkey w
       (mkMonkeyArgs requirements stack_output report_output files seed decision
          dry_run context no_pretty (Some ""))
     = dependency_monkey w
         (mkMonkeyArgs requirements stack_output report_output files seed decision
            dry_run context no_pretty None).
Proof. split; reflexivity. Qed.

(** ** A complete enumeration *)

(** A sink that cannot raise with the context it has: the Amun wrapper
    needs a dictionary, the other two need nothing. *)
Definition sink_ready (s : sink) (context : value) : Prop :=
  match s with
  | AmunSink _ => exists d, context = VDict d
  | _ => True
  end.

(** The project as [_fill_package_digests] hands it on. *)
Definition filled (w : World) (p : Project) : Project :=
  match _fill_package_digests w p with
  | Ok p' => p'
  | Err _ => p
  end.

(** The calls of the output function for [ps], numbered from [first]. *)
Fixpoint numbered_calls (w : World) (ps : list Project) (first : Z) : list event :=
  match ps with
  | [] => []
  | p :: ps => EvOutputCall (filled w p) first :: numbered_calls w ps (first + 1)
  end.

Definition output_calls (evs : list event) : list event :=
  filter (fun e => is_output_call e = true) evs.

Lemma output_calls_app (l l' : list event) :
  output_calls (l ++ l') = output_calls l ++ output_calls l'.
Proof. apply filter_app. Qed.

Lemma output_calls_effects (evs : list event) :
  Forall sink_effect evs -> output_calls evs = [].
Proof.
  induction 1 as [|e evs (_ & He & _) _ IH]; [done|].
  unfold output_calls in *. rewrite filter_cons, IH.
  destruct (decide (is_output_call e = true)); [congruence|done].
Qed.

Lemma emit_ready (w : World) (s : sink) (p : Project) (st st' : monkey_state)
    (raised : option exception) :
  sink_ready s (ms_context st) ->
  emit w s p st = (st', raised) ->
  raised = None /\ sink_ready s (ms_context st').
Proof.
  unfold emit, output_function. intros Hready.
  destruct s as [output| |output]; simpl in *.
  - destruct Hready as [d ->]. simpl.
    destruct (truthy_str (amun_inspect w output _)); intros [= <- <-]; simpl; eauto.
  - by intros [= <- <-].
  - case_match; by intros [= <- <-].
Qed.

(** The number of stacks a loop with the cap [count] gets through when
    [available] stacks are yielded and [computed] were counted before. *)
Definition enumerated (count : option Z) (computed : Z) (available : nat) : nat :=
  match count with
  | Some n => Nat.min available (Z.to_nat (n - computed))
  | None => available
  end.

Lemma walk_loop_enumerates (w : World) (s : sink) (count : option Z)
    (ps : list Project) (st : monkey_state) :
  Forall locked ps ->
  sink_ready s (ms_context st) ->
  (forall n, count = Some n -> ms_computed st < n) ->
  let st' := (walk_loop w s false count (yields ps WStop) st).1.1 in
  (walk_loop w s false count (yields ps WStop) st).1.2 = None
  /\ ms_computed st'
     = ms_computed st + Z.of_nat (enumerated count (ms_computed st) (length ps))
  /\ output_calls (ms_events st')
     = output_calls (ms_events st)
       ++ numbered_calls w (take (enumerated count (ms_computed st) (length ps)) ps)
            (ms_computed st + 1).
Proof.
  intros Hlocked. revert st.
  induction Hlocked as [|p ps [lock Hlock] _ IH]; intros st Hready Hcount.
  { simpl. destruct count; simpl; rewrite ?app_nil_r; repeat split; lia. }
  assert (exists p', _fill_package_digests w p = Ok p') as [p' Hfill].
  { unfold _fill_package_digests. rewrite Hlock. eauto. }
  assert (filled w p = p') as Hfilled by (unfold filled; by rewrite Hfill).
  change (yields (p :: ps) WStop) with (WYield p (yields ps WStop)).
  cbn [walk_loop]. rewrite Hfill. cbn [negb].
  set (st1 := mkMonkeyState _ _ _ _).
  destruct (emit w s p' st1) as [st2 raised] eqn:Hemit.
  destruct (emit_ready w s p' st1 st2 raised Hready Hemit) as [-> Hready2].
  destruct (emit_spec w s p' st1 st2 None Hemit) as (Hc2 & (evs & Hev2 & Heff) & _).
  subst st1. cbn [ms_computed ms_events] in Hc2, Hev2.
  assert (output_calls (ms_events st2)
          = output_calls (ms_events st) ++ [EvOutputCall (filled w p) (ms_computed st + 1)])
    as Hcalls2.
  { rewrite Hev2, !output_calls_app, Hfilled.
    change (EvOutputCall p' (ms_computed st + 1) :: evs)
      with ([EvOutputCall p' (ms_computed st + 1)] ++ evs).
    rewrite output_calls_app, (output_calls_effects evs Heff).
    by rewrite app_nil_r, app_nil_r. }
  destruct (count_reached count (ms_computed st2)) eqn:Hreached.
  - cbn [fst snd]. destruct count as [n|]; [|done].
    specialize (Hcount n eq_refl). simpl in Hreached.
    assert (enumerated (Some n) (ms_computed st) (length (p :: ps)) = 1%nat) as ->.
    { unfold enumerated. simpl length. lia. }
    simpl. split; [done|]. split; [lia|]. exact Hcalls2.
  - destruct (IH st2 Hready2) as (Hnone & Hcomputed & Hcalls).
    { intros n ->. specialize (Hcount n eq_refl). simpl in Hreached. lia. }
    assert (enumerated count (ms_computed st) (length (p :: ps))
            = S (enumerated count (ms_computed st2) (length ps))) as ->.
    { unfold enumerated. destruct count as [n|]; [|done].
      specialize (Hcount n eq_refl). simpl in Hreached. simpl length. lia. }
    split; [exact Hnone|]. split; [rewrite Hcomputed; lia|].
    by rewrite Hcalls, Hcalls2, <- app_assoc, Hc2.
Qed.

(** X20: Outside a dry run, when the walk yields the stacks [ps] and stops and
    the sink is ready, every stack up to the cap is handed to the output
    function exactly once, in the order of the walk, with its digests filled
    in and numbered 1, 2, ...; [computed] is their number, [error] stays
    [False] and the exit code is 0. *)
Theorem dependency_monkey_enumerates (w : World) (a : MonkeyArgs) (su : monkey_setup)
    (g : DependencyGraph w) (ps : list Project) :
  monkey_prepare w a = inr su ->
  dry_run a = false ->
  from_project w (su_project su) = Ok g ->
  walk w g (decision a) (su_seed su) = yields ps WStop ->
  Forall locked ps ->
  sink_ready (su_output_function su) (su_context su) ->
  let k := enumerated (su_count su) 0 (length ps) in
  output_calls (dependency_monkey w a).1 = numbered_calls w (take k ps) 1
  /\ count_events is_pulled (dependency_monkey w a).1 = Z.of_nat k
  /\ (exists result,
        printed_results (dependency_monkey w a) = [VDict result]
        /\ dict_get "computed" result = Some (VInt (Z.of_nat k))
        /\ dict_get "error" result = Some (VBool false))
  /\ (dependency_monkey w a).2 = Return 0.
Proof.
  intros Hprepare Hdry Hgraph Hwalk Hlocked Hready k.
  pose proof (monkey_prepare_setup w a su Hprepare) as [Hpos Heff].
  pose proof (walk_loop_extends w (su_output_function su) false (su_count su)
                (yields ps WStop) (monkey_start w a su)) as Hext.
  destruct (walk_loop_enumerates w (su_output_function su) (su_count su) ps
              (monkey_start w a su) Hlocked Hready)
    as (Hnone & Hcomputed & Hcalls).
  { intros n Hn. simpl. by apply Hpos. }
  unfold dependency_monkey. rewrite Hprepare.
  unfold monkey_main, monkey_try. rewrite Hgraph, Hwalk, Hdry.
  destruct (walk_loop w _ false _ (yields ps WStop) _) as [[st raised] rest].
  simpl in Hext, Hnone, Hcomputed, Hcalls. subst raised.
  destruct (monkey_result_kept w a su st Hext) as (Herror & _ & _).
  destruct (monkey_nothing_printed w a su st Heff Hext) as (Hprinted & Hpulled & _).
  rewrite (output_calls_effects _ Heff) in Hcalls. simpl in Hcalls.
  cbn [fst snd ms_events ms_result ms_computed].
  split; [|split; [|split]].
  - by rewrite output_calls_app, Hcalls, app_nil_r.
  - rewrite count_events_app, count_events_cons, count_events_nil, Hpulled, Hcomputed.
    simpl. fold k. lia.
  - eexists. split; [by apply printed_results_last|]. split.
    + by rewrite dict_get_set_eq, Hcomputed.
    + by rewrite dict_get_set_ne.
  - unfold dict_item. by rewrite dict_get_set_ne, Herror.
Qed.

Lemma dependency_monkey_enumerates_witness :
  output_calls
    (dependency_monkey (Demo.world Demo.two_stacks (Ok VNone))
       (Demo.monkey_args "/tmp/stacks" None None false)).1
  = [EvOutputCall (filled (Demo.world Demo.two_stacks (Ok VNone)) (Demo.stack "1")) 1;
     EvOutputCall (filled (Demo.world Demo.two_stacks (Ok VNone)) (Demo.stack "2")) 2].
Proof.
  edestruct (fun su =>
               dependency_monkey_enumerates (Demo.world Demo.two_stacks (Ok VNone))
                 (Demo.monkey_args "/tmp/stacks" None None false) su
                 Demo.the_pipfile_project [Demo.stack "1"; Demo.stack "2"])
    as (Hcalls & _).
  - reflexivity.
  - reflexivity.
  - reflexivity.
  - reflexivity.
  - repeat constructor; by eexists.
  - exact I.
  - exact Hcalls.
Defined.

(** ** The context echoed in the result *)

(** The contexts submitted to Amun, in order. *)
Definition submitted (evs : list event) : list value :=
  omap (fun e => match e with EvAmunInspect _ c => Some c | _ => None end) evs.

(** [result['parameters']['context']] *)
Definition echoed_context (result : list (string * value)) : option value :=
  match dict_get "parameters" result with
  | Some (VDict parameters) => dict_get "context" parameters
  | _ => None
  end.

(** [result['parameters']['context']] and the context the output function
    holds are one object, which is the context of the last submission if
    there was one, and the prepared context [c0] if not. *)
Definition one_context (c0 : value) (st : monkey_state) : Prop :=
  echoed_context (ms_result st) = Some (ms_context st)
  /\ ms_context st = default c0 (last (submitted (ms_events st))).

Lemma echoed_context_set_in (context : value) (result : list (string * value)) :
  is_Some (echoed_context result) ->
  echoed_context (dict_set_in "parameters" "context" context result) = Some context.
Proof.
  unfold echoed_context, dict_set_in, dict_item.
  destruct (dict_get "parameters" result) as [[| | | | |parameters]|];
    try (by intros [? ?]).
  intros _. simpl. rewrite dict_get_set_eq. apply dict_get_set_eq.
Qed.

Lemma echoed_context_other (k : string) (v : value) (result : list (string * value)) :
  k <> "parameters" ->
  echoed_context (dict_set k v result) = echoed_context result.
Proof. intros Hk. unfold echoed_context. by rewrite dict_get_set_ne. Qed.

Lemma echoed_context_append (x : value) (result : list (string * value)) :
  echoed_context (dict_append "output" x result) = echoed_context result.
Proof. unfold echoed_context. by rewrite dict_get_append_ne. Qed.

Lemma submitted_app (l l' : list event) : submitted (l ++ l') = submitted l ++ submitted l'.
Proof. apply omap_app. Qed.

Lemma emit_one_context (w : World) (s : sink) (c0 : value) (p : Project)
    (st st' : monkey_state) (raised : option exception) :
  one_context c0 st -> emit w s p st = (st', raised) -> one_context c0 st'.
Proof.
  unfold one_context, emit, output_function. intros [Hecho Hlast].
  assert (is_Some (echoed_context (ms_result st))) as Hsome by by rewrite Hecho.
  destruct s as [output| |output]; simpl.
  - unfold _dm_amun_inspect_wrapper.
    destruct (ms_context st) as [| | | | |d] eqn:Hcontext;
      try (intros [= <- <-]; simpl; rewrite echoed_context_set_in by done;
           split; [done|];
           by rewrite submitted_app, app_nil_r).
    destruct (truthy_str (amun_inspect w output _)); intros [= <- <-]; simpl;
      rewrite ?echoed_context_append, echoed_context_set_in by done;
      (split; [done|]);
      rewrite submitted_app; simpl; by rewrite last_snoc.
  - intros [= <- <-]. simpl. rewrite echoed_context_set_in by done.
    split; [done|]. by rewrite submitted_app, app_nil_r.
  - case_match; intros [= <- <-]; simpl;
      rewrite ?echoed_context_append, echoed_context_set_in by done;
      (split; [done|]); by rewrite submitted_app, app_nil_r.
Qed.

Lemma walk_loop_one_context (w : World) (s : sink) (c0 : value) (dry_run : bool)
    (count : option Z) (generator : walk_trace) (st : monkey_state) :
  one_context c0 st ->
  one_context c0 (walk_loop w s dry_run count generator st).1.1.
Proof.
  revert st. induction generator as [|exc|p rest IH]; intros st Hone; simpl;
    try done.
  assert (one_context c0
            (mkMonkeyState (ms_events st ++ [EvPulled p]) (ms_result st)
               (ms_context st) (ms_computed st + 1))) as Hpull.
  { destruct Hone as [Hecho Hlast]. split; [done|]. simpl.
    by rewrite submitted_app, app_nil_r. }
  destruct (_fill_package_digests w p) as [p'|exc]; simpl; [|done].
  destruct dry_run; simpl.
  - destruct (count_reached count (ms_computed st + 1)); simpl; [done|].
    by apply IH.
  - destruct (emit w s p' _) as [st' raised] eqn:Hemit.
    pose proof (emit_one_context w s c0 p' _ st' raised Hpull Hemit) as Hone'.
    destruct raised; simpl; [done|].
    destruct (count_reached count (ms_computed st')); simpl; [done|].
    by apply IH.
Qed.

Lemma monkey_prepare_submitted (w : World) (a : MonkeyArgs) (su : monkey_setup) :
  monkey_prepare w a = inr su -> submitted (su_events su) = [].
Proof.
  unfold monkey_prepare.
  destruct (_instantiate_project w _ _ _) as [project|]; [|done].
  destruct (optional_int w (seed a)) as [sd|]; [|done].
  destruct (optional_int w (count a)) as [cnt|]; [|done].
  destruct (match cnt with Some c => c <=? 0 | None => false end); [done|].
  unfold select_output.
  repeat case_match; intros; simplify_eq/=; done.
Qed.

(** X21: The context a printed result echoes under [parameters] is not the
    context the command was given: it is the dictionary the output function
    writes into, so after submissions to Amun it is the context of the last
    submission, the stack under ["python"] included.  Only when nothing was
    submitted is it the prepared context. *)
Theorem dependency_monkey_echoes_last_context (w : World) (a : MonkeyArgs)
    (su : monkey_setup) (result : list (string * value)) :
  monkey_prepare w a = inr su ->
  printed_results (dependency_monkey w a) = [VDict result] ->
  echoed_context result
  = Some (default (su_context su) (last (submitted (dependency_monkey w a).1))).
Proof.
  intros Hprepare.
  pose proof (monkey_prepare_setup w a su Hprepare) as [_ Heff].
  pose proof (monkey_prepare_submitted w a su Hprepare) as Hsub.
  assert (one_context (su_context su) (monkey_start w a su)) as Hstart.
  { split; [done|]. simpl. by rewrite Hsub. }
  unfold dependency_monkey. rewrite Hprepare. unfold monkey_main, monkey_try.
  destruct (from_project w (su_project su)) as [g|exc].
  - pose proof (walk_loop_extends w (su_output_function su) (dry_run a) (su_count su)
                  (walk w g (decision a) (su_seed su)) (monkey_start w a su)) as Hext.
    pose proof (walk_loop_one_context w (su_output_function su) (su_context su)
                  (dry_run a) (su_count su) (walk w g (decision a) (su_seed su))
                  (monkey_start w a su) Hstart) as [Hecho Hlast].
    destruct (walk_loop w _ _ _ _ _) as [[st raised] rest]. simpl in Hext, Hecho, Hlast.
    destruct (monkey_nothing_printed w a su st Heff Hext) as (Hprinted & _ & _).
    destruct raised as [exc|]; [destruct (isinstance (classes w) exc "SolverException")|].
    + rewrite printed_results_last by done. intros [= <-]. simpl.
      rewrite echoed_context_other by done.
      by rewrite submitted_app, app_nil_r, Hecho, Hlast.
    + by rewrite printed_results_none.
    + rewrite printed_results_last by done. intros [= <-]. simpl.
      rewrite echoed_context_other by done.
      by rewrite submitted_app, app_nil_r, Hecho, Hlast.
  - destruct Hstart as [Hecho Hlast].
    assert (count_events is_printed (su_events su) = 0) as Hprinted.
    { apply count_events_none. eapply Forall_impl; [exact Heff|]. by intros ? (? & ? & ?). }
    destruct (isinstance (classes w) exc "SolverException").
    + rewrite printed_results_last by done. intros [= <-]. cbn [fst].
      rewrite submitted_app. cbn [monkey_start ms_events].
      rewrite Hsub. reflexivity.
    + by rewrite printed_results_none.
Qed.

Lemma dependency_monkey_echoes_last_context_witness :
  exists result,
    printed_results
      (dependency_monkey (Demo.world Demo.two_stacks (Ok VNone))
         (Demo.monkey_args "http://amun" (Some "{}") None false))
    = [VDict result]
    /\ echoed_context result = Some (VDict [("python", VDict [("a", VStr "2")])]).
Proof.
  eexists. split; [reflexivity|].
  erewrite (fun su =>
              dependency_monkey_echoes_last_context
                (Demo.world Demo.two_stacks (Ok VNone))
                (Demo.monkey_args "http://amun" (Some "{}") None false) su);
    reflexivity.
Defined.

(** ** A context that is valid JSON but no object *)

(** X22: A context such as [[1]] passes [json.loads] and the checks of the
    preparation.  The first stack handed to Amun then raises a [TypeError]
    in the wrapper; not being a [SolverException] it leaves the command:
    nothing is submitted, nothing is printed. *)
Theorem dependency_monkey_context_not_a_dict (w : World) (a : MonkeyArgs)
    (su : monkey_setup) (output : string) (g : DependencyGraph w) (p : Project)
    (rest : walk_trace) :
  monkey_prepare w a = inr su ->
  su_output_function su = AmunSink output ->
  (forall d, su_context su <> VDict d) ->
  dry_run a = false ->
  from_project w (su_project su) = Ok g ->
  walk w g (decision a) (su_seed su) = WYield p rest ->
  locked p ->
  (forall msg, isinstance (classes w) (TypeError msg) "SolverException" = false) ->
  exists msg,
    dependency_monkey w a
    = (su_events su ++ [EvPulled p; EvOutputCall (filled w p) 1],
       Propagated (TypeError msg))
    /\ submitted (dependency_monkey w a).1 = []
    /\ printed_results (dependency_monkey w a) = [].
Proof.
  intros Hprepare Hsink Hnot Hdry Hgraph Hwalk [lock Hlock] Hclass.
  pose proof (monkey_prepare_setup w a su Hprepare) as [_ Heff].
  pose proof (monkey_prepare_submitted w a su Hprepare) as Hsub.
  assert (exists p', _fill_package_digests w p = Ok p') as [p' Hfill].
  { unfold _fill_package_digests. rewrite Hlock. eauto. }
  assert (filled w p = p') as -> by (unfold filled; by rewrite Hfill).
  assert (exists msg,
            _dm_amun_inspect_wrapper w output (su_context su) p' 1
            = ([], su_context su, Err (TypeError msg))) as [msg Hwrapper].
  { unfold _dm_amun_inspect_wrapper.
    destruct (su_context su) as [| | | | |d] eqn:Hcontext; try (by eexists).
    by destruct (Hnot d). }
  exists msg.
  assert (dependency_monkey w a
          = (su_events su ++ [EvPulled p; EvOutputCall p' 1],
             Propagated (TypeError msg))) as ->.
  { unfold dependency_monkey. rewrite Hprepare. unfold monkey_main, monkey_try.
    rewrite Hgraph, Hwalk, Hdry, Hsink. cbn [walk_loop]. rewrite Hfill. cbn [negb].
    unfold emit, output_function. cbn [monkey_start ms_context ms_computed ms_events].
    change (0 + 1) with 1. rewrite Hwrapper. cbn. rewrite Hclass.
    by rewrite <- app_assoc. }
  split; [done|]. split.
  - cbn [fst]. by rewrite submitted_app, Hsub.
  - apply printed_results_none. rewrite count_events_app.
    rewrite (count_events_none is_printed (su_events su)); [done|].
    eapply Forall_impl; [exact Heff|]. by intros ? (? & ? & ?).
Qed.

Lemma dependency_monkey_context_not_a_dict_witness :
  exists evs msg,
    dependency_monkey
      (mkWorld Demo.classes (fun _ => Ok "") (fun _ => Ok Demo.the_pipfile)
         (fun _ _ => Ok (mkPipfileLock [] [])) Demo.project_to_dict
         (fun _ => VNone) Demo.lock_to_value (fun _ => VNone) (fun _ => VNone)
         (fun _ _ => Ok VNone) (fun p _ _ => Ok (VNone, p)) Demo.py_int
         (fun _ => Ok (VList [VInt 1])) (fun _ => true) Project (fun p => Ok p)
         (fun _ _ _ => Demo.two_stacks) (fun _ _ => Some "inspection-a")
         (fun _ _ => []))
      (Demo.monkey_args "http://amun" (Some "[1]") None false)
    = (evs, Propagated (TypeError msg)).
Proof.
  edestruct (fun su =>
               dependency_monkey_context_not_a_dict
                 (mkWorld Demo.classes (fun _ => Ok "") (fun _ => Ok Demo.the_pipfile)
                    (fun _ _ => Ok (mkPipfileLock [] [])) Demo.project_to_dict
                    (fun _ => VNone) Demo.lock_to_value (fun _ => VNone)
                    (fun _ => VNone) (fun _ _ => Ok VNone)
                    (fun p _ _ => Ok (VNone, p)) Demo.py_int
                    (fun _ => Ok (VList [VInt 1])) (fun _ => true) Project
                    (fun p => Ok p) (fun _ _ _ => Demo.two_stacks)
                    (fun _ _ => Some "inspection-a") (fun _ _ => []))
                 (Demo.monkey_args "http://amun" (Some "[1]") None false) su
                 "http://amun" Demo.the_pipfile_project (Demo.stack "1")
                 (WYield (Demo.stack "2") WStop))
    as (msg & Hout & _).
  - reflexivity.
  - reflexivity.
  - intros d. simpl. discriminate.
  - reflexivity.
  - reflexivity.
  - reflexivity.
  - by eexists.
  - reflexivity.
  - eexists _, msg. exact Hout.
Defined.

(** ** [submit_amun] *)

(** X23: [submit_amun] submits the instantiated project once, under ["python"]
    in the given context or in an empty one, and returns whether or not Amun
    accepted it.  Unlike [dependency_monkey] it does not guard [json.loads]:
    a context that is not valid JSON raises, before anything is submitted. *)
Theorem submit_amun_once (w : World) (a : SubmitArgs) (project : Project) :
  _instantiate_project w (sa_requirements a) (Some (sa_requirements_locked a))
    (sa_files a) = Ok project ->
  (forall exc,
     truthy_str (sa_context a) = true ->
     json_loads w (default "" (sa_context a)) = Err exc ->
     submit_amun w a = ([], Raised exc))
  /\ (forall d,
        (truthy_str (sa_context a) = false /\ d = [])
        \/ (truthy_str (sa_context a) = true
            /\ json_loads w (default "" (sa_context a)) = Ok (VDict d)) ->
        exists d',
          submit_amun w a = ([EvAmunInspect (sa_stack_output a) (VDict d')], Returned)
          /\ dict_get "python" d' = Some (project_to_dict w project)
          /\ (forall k, k <> "python" -> dict_get k d' = dict_get k d)).
Proof.
  intros Hproject. unfold submit_amun. rewrite Hproject. split.
  - intros exc -> ->. done.
  - intros d Hcontext. exists (dict_set "python" (project_to_dict w project) d).
    split; [|split].
    + by destruct Hcontext as [[-> ->]|[-> ->]].
    + apply dict_get_set_eq.
    + intros k Hk. by apply dict_get_set_ne.
Qed.

Lemma submit_amun_once_witness :
  submit_amun (Demo.world WStop (Ok VNone))
    (mkSubmitArgs "a>=1,<3" "a==1" "http://amun" false (Some "{") false)
  = ([], Raised (Exception "JSONDecodeError" "Expecting value"))
  /\ exists d',
       submit_amun (Demo.world WStop (Ok VNone))
         (mkSubmitArgs "a>=1,<3" "a==1" "http://amun" false None false)
       = ([EvAmunInspect "http://amun" (VDict d')], Returned).
Proof.
  split.
  - apply (proj1 (submit_amun_once (Demo.world WStop (Ok VNone))
                    (mkSubmitArgs "a>=1,<3" "a==1" "http://amun" false (Some "{") false)
                    (mkProject Demo.the_pipfile (Some (mkPipfileLock [] []))) eq_refl));
      reflexivity.
  - destruct (proj2 (submit_amun_once (Demo.world WStop (Ok VNone))
                       (mkSubmitArgs "a>=1,<3" "a==1" "http://amun" false None false)
                       (mkProject Demo.the_pipfile (Some (mkPipfileLock [] [])))
                       eq_refl) [] (or_introl (conj eq_refl eq_refl)))
      as (d' & Hout & _).
    exists d'. exact Hout.
Defined.

(** ** Registering a unit once *)

(** X24: Once its class is among the included ones, neither unit registers
    again, whatever else the builder context holds: a unit that yielded and
    was included yields nothing when asked a second time. *)
Theorem should_include_once (cls : unit_class) (kind : RunKind)
    (before after : list unit_class) :
  SortJustificationsWrap.should_include cls
    (mkBuilderContext kind (before ++ cls :: after)) = []
  /\ FullySpecifiedEnvironment.should_include cls
       (mkBuilderContext kind (before ++ cls :: after)) = [].
Proof.
  unfold SortJustificationsWrap.should_include,
    FullySpecifiedEnvironment.should_include, is_included. simpl.
  rewrite bool_decide_eq_true_2 by (apply elem_of_app; right; apply list_elem_of_here).
  by rewrite andb_false_r.
Qed.

(** ** Exit codes of [provenance] and [advise] *)

(** What a command has printed when it ends: one result whose [error]
    matches the exit code when it returns, nothing when it raises. *)
Definition printed_once (out : outcome) (output : string) (pretty : bool) : Prop :=
  match out.2 with
  | Return code =>
      exists result,
        out.1 = [EvPrinted (VDict result) output pretty]
        /\ ((code = 1 /\ dict_get "error" result = Some (VBool true))
            \/ (code = 0 /\ dict_get "error" result = Some (VBool false)))
  | Propagated _ => out.1 = []
  end.

(** X25: A return of [provenance] or [advise] has printed exactly one
    result, and the exit code is 1 when its [error] is [True] and 0 when it is
    [False]; there is no other exit code, and a command that raises has
    printed nothing. *)
Theorem workflow_exit_codes (w : World) :
  (forall a : ProvenanceArgs,
     printed_once (provenance w a) (pa_output a) (negb (pa_no_pretty a)))
  /\ (forall a : AdviseArgs,
        printed_once (advise w a) (aa_output a) (negb (aa_no_pretty a))).
Proof.
  split; intros a; unfold printed_once.
  - unfold provenance, provenance_try.
    destruct (_instantiate_project w _ _ _) as [project|exc].
    + destruct (check_provenance w project (whitelisted a)) as [report|exc].
      * simpl. eexists. split; [reflexivity|]. right. by split.
      * destruct (isinstance (classes w) exc "ThothAdviserException"); [|done].
        destruct (isinstance (classes w) exc "InternalError"); [done|].
        simpl. eexists. split; [reflexivity|]. left. by split.
    + destruct (isinstance (classes w) exc "ThothAdviserException"); [|done].
      destruct (isinstance (classes w) exc "InternalError"); [done|].
      simpl. eexists. split; [reflexivity|]. left. by split.
  - unfold advise, advise_try.
    destruct (_instantiate_project w _ _ _) as [project|exc].
    + destruct (project_advise w project _ _) as [[report advised]|exc].
      * destruct (truthy report).
        { destruct (pipfile_lock advised) as [lock|]; [|done].
          destruct (aa_requirements_format a); simpl; eexists;
            (split; [reflexivity|]); right; by split. }
        simpl. eexists. split; [reflexivity|]. right. by split.
      * destruct (isinstance (classes w) exc "ThothAdviserException"); [|done].
        destruct (isinstance (classes w) exc "InternalError"); [done|].
        simpl. eexists. split; [reflexivity|]. left. by split.
    + destruct (isinstance (classes w) exc "ThothAdviserException"); [|done].
      destruct (isinstance (classes w) exc "InternalError"); [done|].
      simpl. eexists. split; [reflexivity|]. left. by split.
Qed.

(** ** The output entries of a directory sink *)

(** The directories of [k] stacks numbered from [first]. *)
Fixpoint stack_directories (output : string) (first : Z) (k : nat) : list value :=
  match k with
  | O => []
  | S k =>
      VStr (path_join output (format_05d first))
        :: stack_directories output (first + 1) k
  end.

Lemma emit_directory (w : World) (output : string) (p : Project)
    (st : monkey_state) (l : list value) :
  0 < ms_computed st ->
  dict_get "output" (ms_result st) = Some (VList l) ->
  (emit w (DirectorySink output) p st).2 = None
  /\ ms_computed (emit w (DirectorySink output) p st).1 = ms_computed st
  /\ dict_get "output" (ms_result (emit w (DirectorySink output) p st).1)
     = Some (VList (l ++ [VStr (path_join output (format_05d (ms_computed st)))])).
Proof.
  intros Hpos Hout. unfold emit, output_function. simpl.
  pose proof (directory_path_nonempty output p (ms_computed st) Hpos) as Hne.
  simpl in Hne. apply String.eqb_neq in Hne. rewrite Hne. simpl.
  split; [done|]. split; [done|].
  unfold dict_append, dict_item. rewrite dict_get_set_in_ne, Hout by done. simpl.
  apply dict_get_set_eq.
Qed.

Lemma walk_loop_directory (w : World) (output : string) (count : option Z)
    (ps : list Project) (st : monkey_state) (l : list value) :
  Forall locked ps ->
  0 <= ms_computed st ->
  (forall n, count = Some n -> ms_computed st < n) ->
  dict_get "output" (ms_result st) = Some (VList l) ->
  dict_get "output"
    (ms_result (walk_loop w (DirectorySink output) false count (yields ps WStop) st).1.1)
  = Some (VList (l ++ stack_directories output (ms_computed st + 1)
                        (enumerated count (ms_computed st) (length ps)))).
Proof.
  intros Hlocked. revert st l.
  induction Hlocked as [|p ps [lock Hlock] _ IH]; intros st l Hc Hcount Hout.
  { simpl. destruct count; simpl; by rewrite app_nil_r. }
  assert (exists p', _fill_package_digests w p = Ok p') as [p' Hfill].
  { unfold _fill_package_digests. rewrite Hlock. eauto. }
  change (yields (p :: ps) WStop) with (WYield p (yields ps WStop)).
  cbn [walk_loop]. rewrite Hfill. cbn [negb].
  set (st1 := mkMonkeyState _ _ _ _).
  destruct (emit_directory w output p' st1 l) as (Hnone & Hc2 & Hout2).
  { subst st1. simpl. lia. }
  { done. }
  destruct (emit w (DirectorySink output) p' st1) as [st2 raised].
  simpl in Hnone, Hc2, Hout2. subst raised. subst st1. simpl in Hc2, Hout2.
  destruct (count_reached count (ms_computed st2)) eqn:Hreached.
  - cbn [fst snd]. destruct count as [n|]; [|done].
    specialize (Hcount n eq_refl). simpl in Hreached.
    assert (enumerated (Some n) (ms_computed st) (length (p :: ps)) = 1%nat) as ->.
    { unfold enumerated. simpl length. lia. }
    exact Hout2.
  - rewrite (IH st2 _ ltac:(lia) ltac:(intros n ->; specialize (Hcount n eq_refl);
                                       simpl in Hreached; lia) Hout2).
    assert (enumerated count (ms_computed st) (length (p :: ps))
            = S (enumerated count (ms_computed st2) (length ps))) as ->.
    { unfold enumerated. destruct count as [n|]; [|done].
      specialize (Hcount n eq_refl). simpl in Hreached. simpl length. lia. }
    rewrite Hc2, <- app_assoc. reflexivity.
Qed.

(** A complete enumeration in terms of the state [st] in which the loop is
    left. *)
Lemma monkey_completes (w : World) (a : MonkeyArgs) (su : monkey_setup)
    (g : DependencyGraph w) (ps : list Project) :
  monkey_prepare w a = inr su ->
  dry_run a = false ->
  from_project w (su_project su) = Ok g ->
  walk w g (decision a) (su_seed su) = yields ps WStop ->
  Forall locked ps ->
  sink_ready (su_output_function su) (su_context su) ->
  exists st,
    dependency_monkey w a
    = (ms_events st
         ++ [EvPrinted
               (VDict (dict_set "computed" (VInt (ms_computed st)) (ms_result st)))
               (report_output a) (negb (no_pretty a))],
       Return 0)
    /\ count_events is_printed (ms_events st) = 0
    /\ ms_computed st = Z.of_nat (enumerated (su_count su) 0 (length ps))
    /\ (walk_loop w (su_output_function su) false (su_count su) (yields ps WStop)
          (monkey_start w a su)).1.1 = st.
Proof.
  intros Hprepare Hdry Hgraph Hwalk Hlocked Hready.
  pose proof (monkey_prepare_setup w a su Hprepare) as [Hpos Heff].
  pose proof (walk_loop_extends w (su_output_function su) false (su_count su)
                (yields ps WStop) (monkey_start w a su)) as Hext.
  destruct (walk_loop_enumerates w (su_output_function su) (su_count su) ps
              (monkey_start w a su) Hlocked Hready)
    as (Hnone & Hcomputed & _).
  { intros n Hn. simpl. by apply Hpos. }
  unfold dependency_monkey. rewrite Hprepare.
  unfold monkey_main, monkey_try. rewrite Hgraph, Hwalk, Hdry.
  destruct (walk_loop w _ false _ (yields ps WStop) _) as [[st raised] rest].
  simpl in Hext, Hnone, Hcomputed. subst raised.
  destruct (monkey_result_kept w a su st Hext) as (Herror & _ & _).
  destruct (monkey_nothing_printed w a su st Heff Hext) as (Hprinted & _ & _).
  exists st. cbn [fst snd ms_events ms_result ms_computed].
  split; [|by repeat split].
  unfold dict_item. by rewrite dict_get_set_ne, Herror.
Qed.

(** X26: With a directory as stack output, outside a dry run, the [output] of
    the printed result lists the directories of the stacks written, in order:
    [<output>/00001], [<output>/00002], ... up to the number computed. *)
Theorem dependency_monkey_directory_entries (w : World) (a : MonkeyArgs)
    (su : monkey_setup) (output : string) (g : DependencyGraph w) (ps : list Project) :
  monkey_prepare w a = inr su ->
  su_output_function su = DirectorySink output ->
  dry_run a = false ->
  from_project w (su_project su) = Ok g ->
  walk w g (decision a) (su_seed su) = yields ps WStop ->
  Forall locked ps ->
  exists result,
    printed_results (dependency_monkey w a) = [VDict result]
    /\ dict_get "output" result
       = Some (VList (stack_directories output 1
                        (enumerated (su_count su) 0 (length ps))))
    /\ dict_get "computed" result
       = Some (VInt (Z.of_nat (enumerated (su_count su) 0 (length ps)))).
Proof.
  intros Hprepare Hsink Hdry Hgraph Hwalk Hlocked.
  assert (sink_ready (su_output_function su) (su_context su)) as Hready
    by by rewrite Hsink.
  destruct (monkey_completes w a su g ps Hprepare Hdry Hgraph Hwalk Hlocked Hready)
    as (st & Hout & Hprinted & Hcomputed & Hloop).
  pose proof (monkey_prepare_setup w a su Hprepare) as [Hpos _].
  pose proof (walk_loop_directory w output (su_count su) ps (monkey_start w a su) []
                Hlocked) as Hdir.
  rewrite Hsink in Hloop. rewrite Hloop in Hdir. simpl in Hdir.
  eexists. rewrite Hout. split; [by apply printed_results_last|]. split.
  - rewrite dict_get_set_ne by done. apply Hdir; [lia| |done].
    intros n Hn. by apply Hpos.
  - by rewrite dict_get_set_eq, Hcomputed.
Qed.

Lemma dependency_monkey_directory_entries_witness :
  exists result,
    printed_results
      (dependency_monkey (Demo.world Demo.two_stacks (Ok VNone))
         (Demo.monkey_args "/tmp/stacks" None None false))
    = [VDict result]
    /\ dict_get "output" result
       = Some (VList [VStr "/tmp/stacks/00001"; VStr "/tmp/stacks/00002"]).
Proof.
  edestruct (fun su =>
               dependency_monkey_directory_entries
                 (Demo.world Demo.two_stacks (Ok VNone))
                 (Demo.monkey_args "/tmp/stacks" None None false) su "/tmp/stacks"
                 Demo.the_pipfile_project [Demo.stack "1"; Demo.stack "2"])
    as (result & Hprinted & Houtput & _).
  - reflexivity.
  - reflexivity.
  - reflexivity.
  - reflexivity.
  - reflexivity.
  - repeat constructor; by eexists.
  - exists result. split; [exact Hprinted|]. rewrite Houtput. reflexivity.
Defined.

(** ** Running the boot again *)

(** X27: The boot does not look at what [stack_info] holds: on an environment
    that is not fully specified every run raises again and appends the same
    entry again, behind everything that was there. *)
Theorem fully_specified_environment_run_again
    (is_fully_specified : RuntimeEnvironment -> bool)
    (jl repr_str : string -> string) (context : Context) :
  is_fully_specified (runtime_environment context) = false ->
  let once := FullySpecifiedEnvironment.run is_fully_specified jl repr_str context in
  let twice := FullySpecifiedEnvironment.run is_fully_specified jl repr_str once.1 in
  twice.2 = once.2
  /\ exists entry,
       stack_info once.1 = stack_info context ++ [entry]
       /\ stack_info twice.1 = stack_info context ++ [entry; entry].
Proof.
  intros Hnot. unfold FullySpecifiedEnvironment.run. rewrite Hnot. simpl.
  rewrite Hnot. simpl. split; [done|]. eexists. split; [done|].
  by rewrite <- app_assoc.
Qed.

Lemma fully_specified_environment_run_again_witness :
  length
    (stack_info
       (FullySpecifiedEnvironment.run Demo.is_fully_specified Demo.jl Demo.repr_str
          (FullySpecifiedEnvironment.run Demo.is_fully_specified Demo.jl
             Demo.repr_str Demo.underspecified).1).1) = 2%nat.
Proof.
  destruct (fully_specified_environment_run_again Demo.is_fully_specified Demo.jl
              Demo.repr_str Demo.underspecified eq_refl) as (_ & entry & _ & Htwice).
  rewrite Htwice. reflexivity.
Defined.
